(** * ts_ess: the SEL temperature line decoder and the instrument poll loop

    A shallow embedding of [sel_temperature_reader.py] (class
    [SelTemperature]), [ess_instrument_object.py] (class [EssInstrument]) and
    of the attributes of [mock_temperature_sensor.py] that the decoder
    configures, followed by the properties of the decoder.

    Python [str] is a list of characters, Python [int] is [Z] (or [nat] where
    the value is a count that drives [range]), a Python list is a [list] read
    and written by index with [IndexError] out of range, a [dict] is a [gmap].
    Methods that mutate [self] are computations in a state-and-exception
    monad over the record of the instance's attributes. *)

From Stdlib Require Import ZArith Ascii String List Lia.
From Stdlib Require Import Floats.PrimFloat Floats.SpecFloat Floats.FloatOps.
From stdpp Require Import base list gmap strings.

Set Warnings "-inexact-float".

(** ** Python strings *)

Abbreviation pystr := (list ascii).

Definition lit (s : string) : pystr := list_ascii_of_string s.

Module PyStr.

(** Index normalisation of a slice bound, as [PySlice_AdjustIndices] does
    for step 1: a negative bound counts from the end, and every bound is
    clamped to [0, len]. *)
Definition clamp (len i : Z) : Z :=
  if (i <? 0)%Z then Z.max (i + len) 0 else Z.min i len.

(** [s[a:b]]; [None] is an omitted bound. *)
Definition slice (a b : option Z) (s : pystr) : pystr :=
  let len := Z.of_nat (length s) in
  let lo := from_option (clamp len) 0%Z a in
  let hi := from_option (clamp len) len b in
  take (Z.to_nat (hi - lo)) (drop (Z.to_nat lo) s).

(** [s.split(sep, maxsplit)] for a one-character separator: cut at the
    first [maxsplit] occurrences of [sep], at all of them when [maxsplit]
    is negative. The result is never empty. *)
Fixpoint split (sep : ascii) (maxsplit : Z) (s : pystr) : list pystr :=
  match s with
  | [] => [[]]
  | c :: s' =>
      if negb (maxsplit =? 0)%Z && Ascii.eqb c sep
      then [] :: split sep (maxsplit - 1) s'
      else match split sep maxsplit s' with
           | [] => [[c]]
           | f :: fs => (c :: f) :: fs
           end
  end.

Definition digit_char (d : nat) : ascii := ascii_of_nat (48 + d).

Fixpoint dec_digits (fuel n : nat) : pystr :=
  match fuel with
  | 0 => []
  | S fuel' =>
      if n <? 10 then [digit_char n]
      else dec_digits fuel' (n / 10) ++ [digit_char (n mod 10)]
  end.

(** [str(n)] for a non-negative integer. *)
Definition of_nat (n : nat) : pystr := dec_digits (S n) n.

(** The format specification [{n:02}]: decimal, padded with zeros on the
    left to at least two characters. *)
Definition format_02 (n : nat) : pystr :=
  let s := of_nat n in repeat "0"%char (2 - length s) ++ s.

End PyStr.

(** ** Python values and floats *)

(** The interpreter's float operations the program uses. [py_float] is the
    builtin [float] on a string, [None] standing for [ValueError];
    [float_of_int] is the conversion applied to the integer operand of
    [int * float]; [float_mul] is float multiplication; [float_const_0_167]
    is the value of the literal [0.167]. *)
Class PyFloatOps (F : Type) := {
  py_float : pystr -> option F;
  float_of_int : Z -> F;
  float_mul : F -> F -> F;
  float_const_0_167 : F
}.

Inductive pyval (F : Type) : Type :=
  | PyFloat (f : F)
  | PyStr (s : pystr).
Arguments PyFloat {F} f.
Arguments PyStr {F} s.

Inductive exn : Type :=
  | IndexError
  | OtherError (msg : pystr).

(** Outcome of a method call on an instance whose attributes are [St]:
    normal return, or an exception, with the attributes as they were when it
    was raised. *)
Inductive outcome (St A : Type) : Type :=
  | Return (a : A) (s : St)
  | Raise (e : exn) (s : St).
Arguments Return {St A} a s.
Arguments Raise {St A} e s.

Definition M (St A : Type) : Type := St -> outcome St A.

Definition ret {St A} (a : A) : M St A := fun s => Return a s.

Definition bind {St A B} (m : M St A) (k : A -> M St B) : M St B :=
  fun s => match m s with
           | Return a s' => k a s'
           | Raise e s' => Raise e s'
           end.

Definition raise {St A} (e : exn) : M St A := fun s => Raise e s.
Definition get {St} : M St St := fun s => Return s s.
Definition modify {St} (f : St -> St) : M St unit := fun s => Return tt (f s).

(** The monad structure, so that method bodies read [x ← m; k] and [m;; k]. *)
#[global] Instance M_ret {St} : MRet (M St) := fun _ a => ret a.
#[global] Instance M_bind {St} : MBind (M St) := fun _ _ k m => bind m k.

(** [l[i]] for [0 <= i]. *)
Definition getitem {St A} (l : list A) (i : nat) : M St A :=
  match l !! i with
  | Some x => ret x
  | None => raise IndexError
  end.

(** [for i in l: acc = body(i, acc)], the loop-carried local in [acc]. *)
Fixpoint for_fold {St A} (l : list nat) (body : nat -> A -> M St A)
    (acc : A) : M St A :=
  match l with
  | [] => ret acc
  | i :: l' => acc' ← body i acc; for_fold l' body acc'
  end.

(** [for i in range(n): body(i)]. *)
Definition for_range {St} (n : nat) (body : nat -> M St unit) : M St unit :=
  for_fold (seq 0 n) (fun i _ => body i) tt.

(** ** Module constants of [sel_temperature_reader.py] *)

Definition BAUDRATE : Z := 19200.
Definition PREAMBLE_SIZE : Z := 4.
Definition VALUE_SIZE : Z := 9.
Definition DELIMITER : pystr := Eval cbv in lit ",".
Definition TERMINATOR : pystr := ["013"%char; "010"%char].
Definition SENSOR_UNCONNECTED_VAL : pystr := Eval cbv in lit "-201.0000".

(** [DEFAULT_VAL: float = "9999.9990"]: annotated [float], bound to a [str]. *)
Definition DEFAULT_VAL {F} : pyval F := PyStr (lit "9999.9990").

Definition len (s : pystr) : Z := Z.of_nat (length s).

(** ** The transport, with the attributes of [MockTemperatureSensor] *)

Record MockTemperatureSensor (F : Type) := mkSensor {
  dev_id : nat;                      (* identity of the object, its dict key *)
  dev_name : pystr;
  line_size : option Z;
  terminator : option pystr;
  baudrate : option Z;
  read_timeout : option F
}.
Arguments mkSensor {F}.
Arguments dev_id {F}.
Arguments dev_name {F}.
Arguments line_size {F}.
Arguments terminator {F}.
Arguments baudrate {F}.
Arguments read_timeout {F}.

(** ** [SelTemperature] *)

Record SelTemperature (F : Type) := mkSel {
  name : pystr;
  _channels : nat;
  comport : MockTemperatureSensor F;
  temperature : list (pyval F);
  output : list (pyval F);
  _preamble_str : list pystr;
  _old_preamble_str : list pystr;
  _tmp_temperature : list (pyval F);
  _read_line_size : Z;
  _instances : gmap pystr pystr;     (* name -> the instance, by its name *)
  _devices : gmap nat pystr          (* device -> the instance, by its name *)
}.
Arguments mkSel {F}.
Arguments name {F}.
Arguments _channels {F}.
Arguments comport {F}.
Arguments temperature {F}.
Arguments output {F}.
Arguments _preamble_str {F}.
Arguments _old_preamble_str {F}.
Arguments _tmp_temperature {F}.
Arguments _read_line_size {F}.
Arguments _instances {F}.
Arguments _devices {F}.

Section Decoder.
Context {F : Type} `{PyFloatOps F}.

(** [SerialReader.__init__], the initialiser of the base class in
    [serial_reader.py]: [None] when it returns, [Some e] when it raises. *)
Variable SerialReader_init : pystr -> MockTemperatureSensor F -> option exn.

Abbreviation self := (SelTemperature F).

Definition CH_READ_TIME : F := float_const_0_167.

(** [f"C{i:02}="] and [f"C{i+1:02}="]. *)
Definition preamble (i : nat) : pystr :=
  lit "C" ++ PyStr.format_02 i ++ lit "=".
Definition old_preamble (i : nat) : pystr :=
  lit "C" ++ PyStr.format_02 (i + 1) ++ lit "=".

Definition read_line_size_of (channels : nat) : Z :=
  (Z.of_nat channels * (PREAMBLE_SIZE + VALUE_SIZE + len DELIMITER)
   - len DELIMITER + len TERMINATOR)%Z.

(** *** Attribute updates *)

Definition set_temperature (l : list (pyval F)) (s : self) : self :=
  mkSel (name s) (_channels s) (comport s) l (output s) (_preamble_str s)
    (_old_preamble_str s) (_tmp_temperature s) (_read_line_size s)
    (_instances s) (_devices s).

Definition set_tmp_temperature (l : list (pyval F)) (s : self) : self :=
  mkSel (name s) (_channels s) (comport s) (temperature s) (output s)
    (_preamble_str s) (_old_preamble_str s) l (_read_line_size s)
    (_instances s) (_devices s).

Definition set_output (l : list (pyval F)) (s : self) : self :=
  mkSel (name s) (_channels s) (comport s) (temperature s) l
    (_preamble_str s) (_old_preamble_str s) (_tmp_temperature s)
    (_read_line_size s) (_instances s) (_devices s).

Definition set_comport (c : MockTemperatureSensor F) (s : self) : self :=
  mkSel (name s) (_channels s) c (temperature s) (output s)
    (_preamble_str s) (_old_preamble_str s) (_tmp_temperature s)
    (_read_line_size s) (_instances s) (_devices s).

(** [self._tmp_temperature[i] = v] *)
Definition tmp_setitem (i : nat) (v : pyval F) : M self unit :=
  fun s =>
    if bool_decide (i < length (_tmp_temperature s))
    then Return tt (set_tmp_temperature (<[i := v]> (_tmp_temperature s)) s)
    else Raise IndexError s.

(** [self.temperature[i] = v] *)
Definition temperature_setitem (i : nat) (v : pyval F) : M self unit :=
  fun s =>
    if bool_decide (i < length (temperature s))
    then Return tt (set_temperature (<[i := v]> (temperature s)) s)
    else Raise IndexError s.

(** [self.output.append(v)] *)
Definition output_append (v : pyval F) : M self unit :=
  modify (fun s => set_output (output s ++ [v]) s).

(** *** [_test_val]

    [Some true] and [Some false] are the two explicit returns; [None] is
    the implicit [return None] taken when the preamble does not match. The
    [ValueError] of [float] is caught (and logged) inside the method. *)
Definition _test_val (pre sensor_str : pystr) : option bool :=
  if bool_decide (PyStr.slice (Some 0%Z) (Some PREAMBLE_SIZE) sensor_str = pre)
  then
    match py_float (PyStr.slice (Some PREAMBLE_SIZE)
                      (Some (PREAMBLE_SIZE + VALUE_SIZE + len DELIMITER - 1)%Z)
                      sensor_str) with
    | Some _ => Some true
    | None => Some false
    end
  else None.

(** Truth value of what [_test_val] returns. *)
Definition truthy (r : option bool) : bool :=
  match r with Some b => b | None => false end.

Definition msg_channel (ser_line : pystr) : pystr :=
  lit "Malformed response. Channel preamble or channel data incorrect: "
  ++ ser_line.
Definition msg_convert (ser_line : pystr) : pystr :=
  lit "Temperature data error. Could not convert value(s) to float: "
  ++ ser_line.
Definition msg_framing (ser_line : pystr) : pystr :=
  lit "Malformed response. Terminator or line size incorrect: " ++ ser_line.

(** *** [read]: the body of [for i in range(self._channels)] over the
    fields. [err] is the loop-carried local. [temps] is a local list that
    nothing mutates, so [temps[i]] is looked up once, at its first
    evaluation (after [self._preamble_str[i]], the first argument). *)
Definition read_channel (ser_line : pystr) (temps : list pystr)
    (i : nat) (err : pystr) : M self pystr :=
  s ← get;
  pre ← getitem (_preamble_str s) i;
  t ← getitem temps i;
  accepted ←
    (if truthy (_test_val pre t) then ret true
     else old ← getitem (_old_preamble_str s) i;
          ret (truthy (_test_val old t)));
  err' ←
    (if accepted : bool then
       if bool_decide (PyStr.slice (Some PREAMBLE_SIZE) None t
                       <> SENSOR_UNCONNECTED_VAL)
       then
         match py_float (PyStr.slice (Some PREAMBLE_SIZE) None t) with
         | Some f => tmp_setitem i (PyFloat f);; ret err
         | None => ret (msg_convert ser_line)
         end
       else ret err
     else ret (msg_channel ser_line));
  s' ← get;
  v ← getitem (_tmp_temperature s') i;
  temperature_setitem i v;;
  ret err'.

(** [self.output.append(self.temperature[i])] *)
Definition append_temperature (i : nat) : M self unit :=
  s ← get;
  v ← getitem (temperature s) i;
  output_append v.

(** [read], given the value [now] of [time.time()] and the pair
    [(err, ser_line)] that [self.comport.readline] returned. The sample is
    left in [self.output]. *)
Definition read (now : F) (response : pystr * pystr) : M self unit :=
  s ← get;
  for_range (_channels s) (fun i => tmp_setitem i DEFAULT_VAL);;
  let '(err, ser_line) := response in
  err ←
    (if bool_decide (err = lit "OK") then
       if bool_decide (PyStr.slice (Some (- len TERMINATOR)%Z) None ser_line
                       = TERMINATOR)
          && (len ser_line =? _read_line_size s)%Z
       then
         let line := PyStr.slice None (Some (- len TERMINATOR)%Z) ser_line in
         let temps :=
           PyStr.split ","%char (Z.of_nat (_channels s) - 1) line in
         for_fold (seq 0 (_channels s)) (read_channel ser_line temps) err
       else ret (msg_framing ser_line)
     else ret err);
  modify (set_output []);;
  output_append (PyFloat now);;
  output_append (PyStr err);;
  for_range (_channels s) append_temperature.

(** *** [__init__]

    One turn of the loop that fills the per-channel lists. *)
Definition init_channel (s : self) (i : nat) : self :=
  mkSel (name s) (_channels s) (comport s)
    (temperature s ++ [DEFAULT_VAL]) (output s)
    (_preamble_str s ++ [preamble i])
    (_old_preamble_str s ++ [old_preamble i])
    (_tmp_temperature s ++ [DEFAULT_VAL])
    (_read_line_size s) (_instances s) (_devices s).

(** [SelTemperature(name, uart_device, channels)]: the new instance, or the
    exception that the construction raises. Both registries are attributes
    that [__init__] binds to new empty dicts before it looks the name and
    the device up in them. *)
Definition SelTemperature_init (name : pystr)
    (uart_device : MockTemperatureSensor F) (channels : nat) : exn + self :=
  match SerialReader_init name uart_device with
  | Some e => inl e
  | None =>
      let instances : gmap pystr pystr := ∅ in
      let devices : gmap nat pystr := ∅ in
      if bool_decide (instances !! name = None) then
        if bool_decide (devices !! dev_id uart_device = None) then
          let s0 := mkSel name channels uart_device [] [] [] [] [] 0%Z
                      instances devices in
          let s1 := foldl init_channel s0 (seq 0 channels) in
          inr (mkSel name channels uart_device
                 (temperature s1) (output s1)
                 (_preamble_str s1) (_old_preamble_str s1)
                 (_tmp_temperature s1)
                 (read_line_size_of channels)
                 (<[name := name]> instances)
                 (<[dev_id uart_device := name]> devices))
        else inl IndexError
      else inl IndexError
  end.

(** The instance that a construction which raises nothing returns. *)
Definition constructed (name : pystr)
    (uart_device : MockTemperatureSensor F) (channels : nat) : self :=
  mkSel name channels uart_device
    (replicate channels DEFAULT_VAL) []
    (preamble <$> seq 0 channels) (old_preamble <$> seq 0 channels)
    (replicate channels DEFAULT_VAL)
    (read_line_size_of channels)
    {[name := name]} {[dev_id uart_device := name]}.

(** *** [start] and [stop]; [open] and [close] of the mock do nothing. *)
Definition start : M self unit :=
  modify (fun s =>
    let c := comport s in
    set_comport
      (mkSensor (dev_id c) (dev_name c)
         (Some (_read_line_size s))
         (Some TERMINATOR)
         (Some BAUDRATE)
         (Some (float_mul (float_of_int (Z.of_nat (_channels s) + 1))
                  CH_READ_TIME)))
      s).

Definition stop : M self unit := mret tt.

(** *** One turn of the loop of [read], as functions of the field

    [accepted] is the condition of the outer [if]; [decode_field] is what
    the turn leaves in [temperature[i]] when the slot of [_tmp_temperature]
    was reset before; [field_status] is the value of [err] after the turn;
    [status_after] is [err] after the turns for the indices [l]. *)
Definition accepted (i : nat) (t : pystr) : bool :=
  truthy (_test_val (preamble i) t) || truthy (_test_val (old_preamble i) t).

(** [t[PREAMBLE_SIZE:]], the text that [read] compares and converts, and
    [t[PREAMBLE_SIZE : PREAMBLE_SIZE + VALUE_SIZE + len(DELIMITER) - 1]],
    the text that [_test_val] converts. *)
Definition value_text (t : pystr) : pystr :=
  PyStr.slice (Some PREAMBLE_SIZE) None t.
Definition value_window (t : pystr) : pystr :=
  PyStr.slice (Some PREAMBLE_SIZE)
    (Some (PREAMBLE_SIZE + VALUE_SIZE + len DELIMITER - 1)%Z) t.

Definition decode_field (i : nat) (t : pystr) : pyval F :=
  if accepted i t && bool_decide (value_text t <> SENSOR_UNCONNECTED_VAL)
  then match py_float (value_text t) with
       | Some f => PyFloat f
       | None => DEFAULT_VAL
       end
  else DEFAULT_VAL.

Definition field_status (ser_line : pystr) (i : nat) (t err : pystr)
  : pystr :=
  if accepted i t then
    if bool_decide (value_text t <> SENSOR_UNCONNECTED_VAL) then
      match py_float (value_text t) with
      | Some _ => err
      | None => msg_convert ser_line
      end
    else err
  else msg_channel ser_line.

Definition status_after (ser_line : pystr) (temps : list pystr)
    (l : list nat) (err : pystr) : pystr :=
  foldl (fun e i => match temps !! i with
                    | Some t => field_status ser_line i t e
                    | None => e
                    end) err l.

(** [e] is one of the two messages that the loop assigns to [err]. *)
Definition loop_message (ser_line e : pystr) : Prop :=
  e = msg_channel ser_line \/ e = msg_convert ser_line.

(** What an accepted field leaves in its channel: the parsed value, or
    the default when the text is that of an unconnected sensor. *)
Definition channel_value (v : pystr) (f : F) : pyval F :=
  if bool_decide (v = SENSOR_UNCONNECTED_VAL) then DEFAULT_VAL
  else PyFloat f.

(** The framing test of [read] and the fields it then cuts the line into. *)
Definition framed (s : self) (ser_line : pystr) : bool :=
  bool_decide (PyStr.slice (Some (- len TERMINATOR)%Z) None ser_line
               = TERMINATOR)
  && (len ser_line =? _read_line_size s)%Z.

Definition fields (s : self) (ser_line : pystr) : list pystr :=
  PyStr.split ","%char (Z.of_nat (_channels s) - 1)
    (PyStr.slice None (Some (- len TERMINATOR)%Z) ser_line).

(** The invariant of an instance between calls. *)
Record wf (s : self) : Prop := {
  wf_temperature : length (temperature s) = _channels s;
  wf_tmp : length (_tmp_temperature s) = _channels s;
  wf_pre : _preamble_str s = preamble <$> seq 0 (_channels s);
  wf_old : _old_preamble_str s = old_preamble <$> seq 0 (_channels s);
  wf_size : _read_line_size s = read_line_size_of (_channels s)
}.

(** What a caller of a method observes. *)
Definition sample_of {A} (o : outcome self A) : option (list (pyval F)) :=
  match o with
  | Return _ s => Some (output s)
  | Raise _ _ => None
  end.

Definition exception_of {A} (o : outcome self A) : option exn :=
  match o with
  | Return _ _ => None
  | Raise e _ => Some e
  end.

Definition state_after {A} (o : outcome self A) : self :=
  match o with
  | Return _ s => s
  | Raise _ s => s
  end.

(** The sample that [read] left in [self.output]: [output[0]] is the
    timestamp, [output[1]] the status, [output[2:]] the values. *)
Definition sample_status (s : self) : option (pyval F) := output s !! 1.
Definition sample_values (s : self) : list (pyval F) := drop 2 (output s).

End Decoder.

(** ** [EssInstrument] *)

Record EssInstrument (F : Type) := mkEss {
  ess_name : pystr;
  _reader : SelTemperature F;
  _enabled : bool;
  ess_instances : gmap pystr pystr;
  ess_devices : gmap nat pystr
}.
Arguments mkEss {F}.
Arguments ess_name {F}.
Arguments _reader {F}.
Arguments _enabled {F}.
Arguments ess_instances {F}.
Arguments ess_devices {F}.

Section PollLoop.
Context {F : Type} `{PyFloatOps F}.

(** [EssInstrument(name, reader, callback_func)]. *)
Definition EssInstrument_init (name : pystr) (reader : SelTemperature F)
  : exn + EssInstrument F :=
  let instances : gmap pystr pystr := ∅ in
  let devices : gmap nat pystr := ∅ in
  if bool_decide (instances !! name = None) then
    if bool_decide (devices !! dev_id (comport reader) = None) then
      inr (mkEss name reader false
             (<[name := name]> instances)
             (<[dev_id (comport reader) := name]> devices))
    else inl IndexError
  else inl IndexError.

(** [start] sets the flag and schedules [_run]. *)
Definition EssInstrument_start (e : EssInstrument F) : EssInstrument F :=
  mkEss (ess_name e) (_reader e) true (ess_instances e) (ess_devices e).

Definition set_reader (r : SelTemperature F) (e : EssInstrument F)
  : EssInstrument F :=
  mkEss (ess_name e) r (_enabled e) (ess_instances e) (ess_devices e).

(** The [while self._enabled] loop of [_run], run over the successive
    values of [time.time()] and results of [comport.readline()]. The state
    is the instrument with the list of samples handed to the callback so
    far. An exception of [read] is not caught: it ends the loop. *)
Fixpoint poll (responses : list (F * (pystr * pystr)))
  : M (EssInstrument F * list (list (pyval F))) unit :=
  fun '(e, sink) =>
    if _enabled e then
      match responses with
      | [] => Return tt (e, sink)
      | (now, response) :: rest =>
          match read now response (_reader e) with
          | Return _ r => poll rest (set_reader r e, sink ++ [output r])
          | Raise ex r => Raise ex (set_reader r e, sink)
          end
      end
    else Return tt (e, sink).

Definition _run (responses : list (F * (pystr * pystr)))
  : M (EssInstrument F * list (list (pyval F))) unit :=
  fun '(e, sink) =>
    match start (_reader e) with
    | Return _ r => poll responses (set_reader r e, sink)
    | Raise ex r => Raise ex (set_reader r e, sink)
    end.

Definition delivered {A}
    (o : outcome (EssInstrument F * list (list (pyval F))) A)
  : list (list (pyval F)) :=
  match o with
  | Return _ (_, sink) => sink
  | Raise _ (_, sink) => sink
  end.

Definition loop_exception {A}
    (o : outcome (EssInstrument F * list (list (pyval F))) A)
  : option exn :=
  match o with
  | Return _ _ => None
  | Raise e _ => Some e
  end.

End PollLoop.

(** ** An instance of the float operations on binary64

    [float] on the plain fixed-point numerals [[+-]digits[.digits]] of at
    most 15 digits, the instrument's value format among them: the digits
    and the power of ten are both exact in binary64, so one correctly
    rounded division gives the nearest float. Every other string is answered
    with [None] here. *)
Module Binary64.

Definition digit_val (c : ascii) : option Z :=
  let n := Z.of_nat (nat_of_ascii c) in
  if (48 <=? n)%Z && (n <=? 57)%Z then Some (n - 48)%Z else None.

Fixpoint digits_val (acc : Z) (s : pystr) : option Z :=
  match s with
  | [] => Some acc
  | c :: s' => d ← digit_val c; digits_val (10 * acc + d)%Z s'
  end.

Definition of_Z (z : Z) : float :=
  SF2Prim (binary_normalize prec emax z 0 false).

Definition unsigned (s : pystr) : option float :=
  match PyStr.split "."%char 1 s with
  | [ip] =>
      if bool_decide (0 < length ip <= 15)
      then m ← digits_val 0 ip; Some (of_Z m)
      else None
  | [ip; fp] =>
      if bool_decide (0 < length (ip ++ fp) <= 15)
      then m ← digits_val 0 (ip ++ fp);
           Some (PrimFloat.div (of_Z m) (of_Z (10 ^ Z.of_nat (length fp))))
      else None
  | _ => None
  end.

Definition float_of_str (s : pystr) : option float :=
  match s with
  | "-"%char :: r => PrimFloat.opp <$> unsigned r
  | "+"%char :: r => unsigned r
  | _ => unsigned s
  end.

#[global] Instance ops : PyFloatOps float := {|
  py_float := float_of_str;
  float_of_int := of_Z;
  float_mul := PrimFloat.mul;
  float_const_0_167 := 0.167%float
|}.

End Binary64.

(** ** Scenarios on the binary64 instance *)
Module Scenario.

Definition device : MockTemperatureSensor float :=
  mkSensor 1 (lit "MockSensor") None None None None.

(** A base-class initialiser that returns. *)
Definition base_returns (_ : pystr) (_ : MockTemperatureSensor float)
  : option exn := None.

Definition decoder4 : SelTemperature float :=
  constructed (lit "MockSensor") device 4.
Definition decoder2 : SelTemperature float :=
  constructed (lit "MockSensor") device 2.

Definition t1 : float := 1604476800.
Definition t2 : float := 1604476801.

Definition values4 : list pystr :=
  [lit "0018.1234"; lit "0020.0000"; lit "0025.5000"; lit "0029.9999"].
Definition floats4 : list float := [18.1234; 20; 25.5; 29.9999]%float.

Definition line_current : pystr :=
  lit "C00=0018.1234,C01=0020.0000,C02=0025.5000,C03=0029.9999".
Definition line_legacy : pystr :=
  lit "C01=0018.1234,C02=0020.0000,C03=0025.5000,C04=0029.9999".
(** Channel 2 carries a text that is no number. *)
Definition line_garbled2 : pystr :=
  lit "C00=0018.1234,C01=0020.0000,C02=00XX.5000,C03=0029.9999".
(** Channel 2 has no sensor connected. *)
Definition line_unconnected2 : pystr :=
  lit "C00=0018.1234,C01=0020.0000,C02=-201.0000,C03=0029.9999".
(** A two-channel line whose delimiter arrived as a semicolon. *)
Definition line_no_delimiter : pystr :=
  lit "C00=0018.1234;C01=0020.0000".
Definition line_two : pystr :=
  lit "C00=0018.1234,C01=0020.0000".

Definition LFLF : pystr := ["010"%char; "010"%char].

(** A started poll loop on the two-channel decoder. *)
Definition instrument2 : EssInstrument float :=
  EssInstrument_start
    (mkEss (lit "MockSensor") decoder2 false
       {[lit "MockSensor" := lit "MockSensor"]}
       {[dev_id device := lit "MockSensor"]}).

(** The four-channel decoder after it has read [line_current]. *)
Definition decoder4_read : SelTemperature float :=
  state_after (read t1 (lit "OK", line_current ++ TERMINATOR) decoder4).

End Scenario.

(** ** The rest of [MockTemperatureSensor]: [format_temperature], [readline] *)

(** The format specification [{z:02d}] on any integer: the sign, when there
    is one, counts for the width. *)
Definition format_02d (z : Z) : pystr :=
  if (z <? 0)%Z then "-"%char :: PyStr.of_nat (Z.to_nat (- z))
  else PyStr.format_02 (Z.to_nat z).

(** The attributes of the mock that the transport record above leaves out. *)
Record MockSettings := mkMock {
  mock_channels : nat;
  count_offset : Z;
  nan_channel : option Z
}.

(** What [s += None] raises, [terminator] being [None] until [start]. *)
Definition TypeError : exn := OtherError (lit "TypeError").

Section Mock.
Context {F : Type}.

(** The format specification [{temp:09.4f}]. *)
Variable format_09_4f : F -> pystr.

(** The text of channel [i] before the delimiter or terminator is added;
    [temp] is the value that [random.uniform] returned. *)
Definition mock_field (cfg : MockSettings) (temp : F) (i : nat) : pystr :=
  let s := lit "C" ++ format_02d (Z.of_nat i + count_offset cfg)
           ++ lit "=" ++ format_09_4f temp in
  if bool_decide (Some (Z.of_nat i) = nan_channel cfg)
  then lit "C" ++ format_02d (Z.of_nat i + count_offset cfg)
       ++ lit "=9999.9990"
  else s.

(** The text behind the preamble in [mock_field]. *)
Definition mock_value (cfg : MockSettings) (temp : F) (i : nat) : pystr :=
  if bool_decide (Some (Z.of_nat i) = nan_channel cfg)
  then lit "9999.9990" else format_09_4f temp.

Definition format_temperature (cfg : MockSettings)
    (dev : MockTemperatureSensor F) (temp : F) (i : nat) : exn + pystr :=
  let s := mock_field cfg temp i in
  if bool_decide (Z.of_nat i = (Z.of_nat (mock_channels cfg) - 1)%Z) then
    match terminator dev with
    | Some t => inr (s ++ t)
    | None => inl TypeError
    end
  else inr (s ++ DELIMITER).

(** The loop of [readline] over the channels [l], [resp] so far; [draw i]
    is the value drawn for channel [i]. *)
Fixpoint readline_loop (cfg : MockSettings) (dev : MockTemperatureSensor F)
    (draw : nat -> F) (l : list nat) (resp : pystr) : exn + pystr :=
  match l with
  | [] => inr resp
  | i :: l' =>
      match format_temperature cfg dev (draw i) i with
      | inl e => inl e
      | inr s => readline_loop cfg dev draw l' (resp ++ s)
      end
  end.

Definition readline (cfg : MockSettings) (dev : MockTemperatureSensor F)
    (draw : nat -> F) : exn + (pystr * pystr) :=
  match readline_loop cfg dev draw (seq 0 (mock_channels cfg)) [] with
  | inl e => inl e
  | inr resp => inr (lit "OK", resp)
  end.

End Mock.

(** [",".join(fs)] *)
Fixpoint join_fields (fs : list pystr) : pystr :=
  match fs with
  | [] => []
  | [f] => f
  | f :: fs' => f ++ DELIMITER ++ join_fields fs'
  end.

(** The number of occurrences of a character, and of commas, in a line. *)
Definition occurrences (sep : ascii) (s : pystr) : nat :=
  length (filter (fun c => c = sep) s).
Definition commas (s : pystr) : nat := occurrences ","%char s.

(** The decimal value of a text of digits. *)
Definition digits_value (s : pystr) : nat :=
  foldl (fun acc c => 10 * acc + (nat_of_ascii c - 48)) 0 s.

Section ReadOutcomes.
Context {F : Type} `{PyFloatOps F}.

(** The responses on which the loop of [read] runs out of fields: status
    OK, a framed line, fewer fields than channels. *)
Definition short_split (s : SelTemperature F) (response : pystr * pystr)
  : Prop :=
  response.1 = lit "OK"
  /\ framed s response.2 = true
  /\ length (fields s response.2) < _channels s.

(** A sample of [channels] values behind the timestamp [now]. *)
Definition sample_shape (channels : nat) (now : F) (o : list (pyval F))
  : Prop :=
  length o = channels + 2 /\ o !! 0 = Some (PyFloat now).

End ReadOutcomes.

(** ** [{x:09.4f}] on binary64

    A finite float is [m * 2^e] exactly; its four decimals are the nearest
    integer to [m * 2^e * 10^4], ties to even, printed with the point before
    the last four digits and padded with zeros behind the sign to nine
    characters. *)
Module Binary64Format.

Definition pad_left (c : ascii) (width : nat) (s : pystr) : pystr :=
  repeat c (width - length s) ++ s.

Definition round_half_even (num den : Z) : Z :=
  let q := (num / den)%Z in
  let r := (num mod den)%Z in
  if (2 * r <? den)%Z then q
  else if (den <? 2 * r)%Z then (q + 1)%Z
  else if Z.even q then q else (q + 1)%Z.

Definition scaled4 (m : positive) (e : Z) : Z :=
  if (0 <=? e)%Z then (Z.pos m * 2 ^ e * 10000)%Z
  else round_half_even (Z.pos m * 10000) (2 ^ (- e)).

Definition fixed4 (n : Z) : pystr :=
  PyStr.of_nat (Z.to_nat (n / 10000)) ++ lit "."
  ++ pad_left "0"%char 4 (PyStr.of_nat (Z.to_nat (n mod 10000))).

Definition signed (negative : bool) (body : pystr) : pystr :=
  if negative then "-"%char :: pad_left "0"%char 8 body
  else pad_left "0"%char 9 body.

Definition format_09_4f (x : float) : pystr :=
  match Prim2SF x with
  | S754_zero s => signed s (fixed4 0)
  | S754_finite s m e => signed s (fixed4 (scaled4 m e))
  | S754_infinity s => signed s (lit "inf")
  | S754_nan => signed false (lit "nan")
  end.

End Binary64Format.

(** ** Scenarios with the mock *)
Module MockScenario.
Import Scenario.

(** The mock of four channels, numbering from 0 and from 1. *)
Definition mock4 : MockSettings := mkMock 4 0 None.
Definition mock4_legacy : MockSettings := mkMock 4 1 None.
Definition mock2_nan : MockSettings := mkMock 2 0 (Some 1%Z).

(** The values that the four draws returned. *)
Definition draw4 (i : nat) : float :=
  nth i floats4 0%float.

(** A mock that numbers its channels from 2. *)
Definition mock4_shifted : MockSettings := mkMock 4 2 None.

(** The same with 99 channels, the last of them numbered 100, in front of
    a decoder of 99 channels; every draw returns 18.1234. *)
Definition mock99_shifted : MockSettings := mkMock 99 2 None.
Definition decoder99 : SelTemperature float :=
  constructed (lit "MockSensor") device 99.
Definition draw_same (_ : nat) : float := 18.1234%float.

(** The transport of the four-channel decoder once it is started. *)
Definition device_started : MockTemperatureSensor float :=
  comport (state_after (start decoder4)).

(** A decoder of 101 channels. *)
Definition decoder101 : SelTemperature float :=
  constructed (lit "MockSensor") device 101.

(** A line of the length that decoder expects, 101 fields of 13 characters:
    channels 0 to 99 with their preambles [C00=] to [C99=] and a value of
    nine characters, channel 100 numbered [C100=] with the eight characters
    that are left. *)
Definition line101 : pystr :=
  join_fields
    (((fun i => preamble i ++ lit "0018.1234") <$> seq 0 100)
     ++ [lit "C100=018.1234"]).


End MockScenario.

(** * Properties *)

(** ** Slices, [split] and the preamble format *)

Section StringFacts.

Lemma slice_from (k : nat) (s : pystr) :
  PyStr.slice (Some (Z.of_nat k)) None s = drop k s.
Proof.
  unfold PyStr.slice, PyStr.clamp; simpl.
  destruct (Z.ltb_spec (Z.of_nat k) 0); [lia|].
  destruct (decide (k <= length s)) as [Hle|Hgt].
  - rewrite Z.min_l by lia. rewrite Nat2Z.id.
    apply take_ge. rewrite length_drop. lia.
  - rewrite Z.min_r by lia. rewrite Nat2Z.id.
    rewrite !drop_ge by lia. apply take_nil.
Qed.

Lemma slice_between (a b : nat) (s : pystr) :
  a <= b ->
  PyStr.slice (Some (Z.of_nat a)) (Some (Z.of_nat b)) s
  = take (b - a) (drop a s).
Proof.
  intros Hab. unfold PyStr.slice, PyStr.clamp; simpl.
  destruct (Z.ltb_spec (Z.of_nat a) 0); [lia|].
  destruct (Z.ltb_spec (Z.of_nat b) 0); [lia|].
  destruct (decide (b <= length s)) as [Hb|Hb].
  - rewrite !Z.min_l by lia. f_equal; [lia|]. f_equal; lia.
  - destruct (decide (a <= length s)) as [Ha|Ha].
    + rewrite (Z.min_l (Z.of_nat a)) by lia. rewrite Z.min_r by lia.
      rewrite Nat2Z.id.
      rewrite !take_ge; [done| |]; rewrite length_drop; lia.
    + rewrite !Z.min_r by lia. rewrite Nat2Z.id.
      rewrite !drop_ge by lia. by rewrite !take_nil.
Qed.

Lemma slice_last (k : nat) (s : pystr) :
  0 < k ->
  PyStr.slice (Some (- Z.of_nat k)%Z) None s = drop (length s - k) s.
Proof.
  intros Hk. unfold PyStr.slice, PyStr.clamp; simpl.
  destruct (Z.ltb_spec (- Z.of_nat k) 0); [|lia].
  replace (Z.to_nat (Z.max (- Z.of_nat k + Z.of_nat (length s)) 0))
    with (length s - k) by lia.
  apply take_ge. rewrite length_drop. lia.
Qed.

Lemma slice_but_last (k : nat) (s : pystr) :
  0 < k ->
  PyStr.slice None (Some (- Z.of_nat k)%Z) s = take (length s - k) s.
Proof.
  intros Hk. unfold PyStr.slice, PyStr.clamp; simpl.
  destruct (Z.ltb_spec (- Z.of_nat k) 0); [|lia].
  rewrite drop_0. f_equal. lia.
Qed.

Lemma split_not_nil sep k s : PyStr.split sep k s <> [].
Proof.
  revert k. induction s as [|c s IH]; intros k; simpl; [done|].
  destruct (_ && _); [done|].
  destruct (PyStr.split sep k s); done.
Qed.

(** The fields of a split line, with one separator between neighbours,
    make up the line. *)
Lemma split_lengths sep k s :
  sum_list (length <$> PyStr.split sep k s) + length (PyStr.split sep k s)
  = S (length s).
Proof.
  revert k. induction s as [|c s IH]; intros k; simpl; [done|].
  destruct (_ && _).
  - csimpl. specialize (IH (k - 1)%Z). lia.
  - specialize (IH k). pose proof (split_not_nil sep k s) as Hne.
    destruct (PyStr.split sep k s) as [|f fs]; [done|].
    csimpl in *. lia.
Qed.

Lemma length_format_02 n : 2 <= length (PyStr.format_02 n).
Proof.
  unfold PyStr.format_02. rewrite length_app, repeat_length. lia.
Qed.

Lemma length_preamble i : 4 <= length (preamble i).
Proof.
  unfold preamble. rewrite !length_app. simpl.
  pose proof (length_format_02 i). lia.
Qed.

Lemma length_old_preamble i : 4 <= length (old_preamble i).
Proof.
  unfold old_preamble. rewrite !length_app. simpl.
  pose proof (length_format_02 (i + 1)). lia.
Qed.

(** A list of numbers, none below [c], that sums to [c] each, is constant. *)
Lemma sum_list_tight (c : nat) (l : list nat) :
  Forall (fun x => c <= x) l ->
  sum_list l = c * length l ->
  Forall (fun x => x = c) l.
Proof.
  induction 1 as [|x l Hx Hl IH]; simpl; intros Hsum; [constructor|].
  assert (c * length l <= sum_list l) as Hlow.
  { clear -Hl. induction Hl; simpl; lia. }
  constructor; [lia|]. apply IH. lia.
Qed.

End StringFacts.

(** ** The loops of [read] *)

Ltac step_M :=
  cbv beta iota zeta delta
    [mbind M_bind bind mret M_ret ret get modify for_range].

Ltac run_M :=
  unfold getitem, mbind, M_bind, bind, mret, M_ret, ret, get, modify, raise;
  simpl.

Section ReadLoops.
Context {F : Type} `{PyFloatOps F}.

Abbreviation self := (SelTemperature F).

Lemma set_same (s : self) :
  set_temperature (temperature s)
    (set_tmp_temperature (_tmp_temperature s) s) = s.
Proof. by destruct s. Qed.

Lemma read_channel_eq ser temps i err (s : self) t :
  _preamble_str s !! i = Some (preamble i) ->
  _old_preamble_str s !! i = Some (old_preamble i) ->
  temps !! i = Some t ->
  _tmp_temperature s !! i = Some DEFAULT_VAL ->
  i < length (temperature s) ->
  read_channel ser temps i err s
  = Return (field_status ser i t err)
      (set_temperature (<[i := decode_field i t]> (temperature s))
         (set_tmp_temperature
            (<[i := decode_field i t]> (_tmp_temperature s)) s)).
Proof.
  intros Hpre Hold Ht Htmp Hi.
  assert (i < length (_tmp_temperature s)) as Hi'
    by (eapply lookup_lt_Some; eauto).
  unfold read_channel, field_status, decode_field, accepted, value_text.
  run_M. rewrite Hpre, Ht, Hold. simpl.
  assert (forall e : pystr,
    match temperature_setitem i DEFAULT_VAL s with
    | Return _ s' => Return e s'
    | Raise x s' => Raise x s'
    end
    = Return e
        (set_temperature (<[i := DEFAULT_VAL]> (temperature s))
           (set_tmp_temperature
              (<[i := DEFAULT_VAL]> (_tmp_temperature s)) s))) as Hdefault.
  { intros e. unfold temperature_setitem.
    rewrite bool_decide_true by done.
    by rewrite (list_insert_id _ _ _ Htmp). }
  destruct (truthy (_test_val (preamble i) t)); simpl;
    [|destruct (truthy (_test_val (old_preamble i) t)); simpl];
    try (rewrite Htmp; simpl; apply Hdefault);
    (destruct (bool_decide _); simpl;
     [|rewrite Htmp; simpl; apply Hdefault]);
    (destruct (py_float _) as [f|]; simpl;
     [|rewrite Htmp; simpl; apply Hdefault]);
    unfold tmp_setitem; rewrite bool_decide_true by done; simpl;
    rewrite list_lookup_insert_eq by done; simpl;
    unfold temperature_setitem; simpl;
    by rewrite bool_decide_true by done.
Qed.

Lemma reset_loop k : forall a (s : self),
  a + k = length (_tmp_temperature s) ->
  for_fold (seq a k) (fun i _ => tmp_setitem i DEFAULT_VAL) tt s
  = Return tt
      (set_tmp_temperature
         (take a (_tmp_temperature s) ++ replicate k DEFAULT_VAL) s).
Proof.
  induction k as [|k IH]; intros a s Hlen; simpl.
  - run_M. rewrite app_nil_r, take_ge by lia. by destruct s.
  - run_M. unfold tmp_setitem at 1. rewrite bool_decide_true by lia.
    rewrite IH by (simpl; rewrite length_insert; lia).
    destruct s; unfold set_tmp_temperature; simpl in *. do 2 f_equal.
    rewrite (take_S_r _ _ DEFAULT_VAL)
      by (apply list_lookup_insert_eq; lia).
    rewrite take_insert_ge by lia.
    by rewrite <- app_assoc.
Qed.

Lemma output_loop k : forall a (s : self),
  a + k <= length (temperature s) ->
  for_fold (seq a k) (fun i _ => append_temperature i) tt s
  = Return tt
      (set_output (output s ++ take k (drop a (temperature s))) s).
Proof.
  induction k as [|k IH]; intros a s Hlen; simpl.
  - run_M. rewrite app_nil_r. by destruct s.
  - destruct (lookup_lt_is_Some_2 (temperature s) a) as [x Hx]; [lia|].
    step_M. unfold append_temperature at 1. run_M.
    rewrite Hx. simpl. unfold output_append. run_M.
    rewrite IH by (simpl; lia). simpl.
    rewrite (drop_S _ _ _ Hx). simpl.
    by rewrite <- app_assoc.
Qed.

(** The loop over the fields, from a state in which the first [a] slots
    hold their decoded values, the slots of [_tmp_temperature] after them
    are reset and those of [temperature] hold the old values [old]. *)
Lemma field_loop ser temps (old : list (pyval F)) k :
  forall a err (s : self),
  a + k = length temps ->
  length old = length temps ->
  _preamble_str s = preamble <$> seq 0 (length temps) ->
  _old_preamble_str s = old_preamble <$> seq 0 (length temps) ->
  _tmp_temperature s
    = take a (imap decode_field temps) ++ replicate k DEFAULT_VAL ->
  temperature s = take a (imap decode_field temps) ++ drop a old ->
  for_fold (seq a k) (read_channel ser temps) err s
  = Return (status_after ser temps (seq a k) err)
      (set_temperature (imap decode_field temps)
         (set_tmp_temperature (imap decode_field temps) s)).
Proof.
  induction k as [|k IH]; intros a err s Hlen Hold Hpre Hopre Htmp Htemp.
  - simpl. run_M. rewrite app_nil_r in Htmp.
    rewrite drop_ge, app_nil_r in Htemp by lia.
    rewrite take_ge in Htmp, Htemp by (rewrite length_imap; lia).
    rewrite <- Htmp at 2. rewrite <- Htemp at 1.
    by rewrite set_same.
  - destruct (lookup_lt_is_Some_2 temps a) as [t Ht]; [lia|].
    destruct (lookup_lt_is_Some_2 old a) as [o Ho]; [lia|].
    assert (length (take a (imap decode_field temps)) = a) as Hta
      by (rewrite length_take, length_imap; lia).
    simpl. unfold mbind, M_bind, bind at 1.
    rewrite (read_channel_eq _ _ _ _ _ t); try done.
    + rewrite Ht.
      rewrite IH; simpl; try done; try lia.
      * rewrite Htmp, insert_app_r_alt by lia.
        rewrite Hta, Nat.sub_diag. simpl.
        rewrite (take_S_r _ _ (decode_field a t))
          by (by rewrite list_lookup_imap, Ht).
        by rewrite <- app_assoc.
      * rewrite Htemp, insert_app_r_alt by lia.
        rewrite Hta, Nat.sub_diag, (drop_S _ _ _ Ho). simpl.
        rewrite (take_S_r _ _ (decode_field a t))
          by (by rewrite list_lookup_imap, Ht).
        by rewrite <- app_assoc.
    + rewrite Hpre, list_lookup_fmap, lookup_seq_lt by lia. done.
    + rewrite Hopre, list_lookup_fmap, lookup_seq_lt by lia. done.
    + rewrite Htmp, lookup_app_r by lia.
      by rewrite Hta, Nat.sub_diag.
    + rewrite Htemp, length_app, length_drop. lia.
Qed.

(** [read] on a response that fails the transport or the framing test. *)
Lemma read_not_framed now err ser (s : self) :
  wf s ->
  err <> lit "OK" \/ framed s ser = false ->
  read now (err, ser) s
  = Return tt
      (set_output
         (PyFloat now
          :: PyStr (if bool_decide (err = lit "OK") then msg_framing ser
                    else err)
          :: temperature s)
         (set_tmp_temperature (replicate (_channels s) DEFAULT_VAL) s)).
Proof.
  intros [Htemp Htmp _ _ _] Hbad.
  unfold read. step_M.
  rewrite reset_loop by (simpl; lia). rewrite take_0, app_nil_l.
  cbv beta iota. fold (framed s ser).
  assert ((if bool_decide (err = lit "OK")
           then if framed s ser
                then for_fold (seq 0 (_channels s))
                       (read_channel ser
                          (PyStr.split ","%char (Z.of_nat (_channels s) - 1)
                             (PyStr.slice None (Some (- len TERMINATOR)%Z)
                                ser))) err
                else fun s0 : self => Return (msg_framing ser) s0
           else fun s0 : self => Return err s0)
          = fun s0 : self =>
              Return (if bool_decide (err = lit "OK")
                      then msg_framing ser else err) s0) as ->.
  { destruct (bool_decide_reflect (err = lit "OK")) as [->|Hne]; [|done].
    destruct Hbad as [Hbad| ->]; done. }
  unfold output_append. step_M.
  rewrite output_loop by (simpl; lia). simpl.
  rewrite drop_0, take_ge by lia. by destruct s.
Qed.

(** The sample of such a read carries the persisted values. *)
Lemma not_framed_sample now err ser (s : self) :
  wf s ->
  err <> lit "OK" \/ framed s ser = false ->
  exists s',
    read now (err, ser) s = Return tt s'
    /\ sample_values s' = temperature s.
Proof.
  intros Hwf Hbad. eexists. split; [by apply read_not_framed|done].
Qed.

(** [read] on a framed line that splits into one field per channel. *)
Lemma read_framed now ser (s : self) :
  wf s ->
  framed s ser = true ->
  length (fields s ser) = _channels s ->
  let vals := imap decode_field (fields s ser) in
  read now (lit "OK", ser) s
  = Return tt
      (set_output
         (PyFloat now
          :: PyStr (status_after ser (fields s ser)
                      (seq 0 (_channels s)) (lit "OK"))
          :: vals)
         (set_temperature vals (set_tmp_temperature vals s))).
Proof.
  intros [Htemp Htmp Hpre Hold _] Hframed Hlen vals.
  unfold read. step_M.
  rewrite reset_loop by (simpl; lia). rewrite take_0, app_nil_l.
  cbv beta iota. fold (framed s ser). fold (fields s ser).
  rewrite bool_decide_true by done. rewrite Hframed.
  rewrite (field_loop ser (fields s ser) (temperature s));
    simpl; try done; try lia; try congruence.
  fold vals. unfold output_append. step_M.
  rewrite output_loop by (simpl; unfold vals; rewrite length_imap; lia).
  simpl. rewrite drop_0, take_ge by (unfold vals; rewrite length_imap; lia).
  by destruct s.
Qed.

(** The loop over the fields when the line has fewer fields than channels:
    the turn of the first channel without a field raises. *)
Lemma field_loop_short ser temps k : forall a err (s : self),
  a <= length temps ->
  length temps < a + k ->
  (forall i, a <= i < a + k ->
     _preamble_str s !! i = Some (preamble i)
     /\ _old_preamble_str s !! i = Some (old_preamble i)
     /\ _tmp_temperature s !! i = Some DEFAULT_VAL
     /\ i < length (temperature s)) ->
  exception_of (for_fold (seq a k) (read_channel ser temps) err s)
  = Some IndexError.
Proof.
  induction k as [|k IH]; intros a err s Hle Hlt Hinv; [lia|].
  destruct (Hinv a) as (Hpre & Hold & Htmp & Htemp); [lia|].
  simpl. unfold mbind, M_bind, bind at 1.
  destruct (decide (a < length temps)) as [Ha|Ha].
  - destruct (lookup_lt_is_Some_2 temps a) as [t Ht]; [lia|].
    rewrite (read_channel_eq _ _ _ _ _ t) by done.
    apply IH; [lia|lia|]. intros i Hi.
    destruct (Hinv i) as (Hpre' & Hold' & Htmp' & Htemp'); [lia|].
    simpl. rewrite list_lookup_insert_ne by lia.
    by rewrite length_insert.
  - assert (temps !! a = None) as Hnone by (apply lookup_ge_None; lia).
    unfold read_channel. run_M. by rewrite Hpre, Hnone.
Qed.

(** [read] on a framed line that splits into fewer fields than channels. *)
Lemma read_short_split now ser (s : self) :
  wf s ->
  framed s ser = true ->
  length (fields s ser) < _channels s ->
  exception_of (read now (lit "OK", ser) s) = Some IndexError.
Proof.
  intros [Htemp Htmp Hpre Hold _] Hframed Hlen.
  unfold read. step_M.
  rewrite reset_loop by (simpl; lia). rewrite take_0, app_nil_l.
  cbv beta iota. fold (framed s ser). fold (fields s ser).
  rewrite bool_decide_true by done. rewrite Hframed.
  assert (exception_of
            (for_fold (seq 0 (_channels s))
               (read_channel ser (fields s ser)) (lit "OK")
               (set_tmp_temperature (replicate (_channels s) DEFAULT_VAL) s))
          = Some IndexError) as Hloop.
  { apply field_loop_short; [lia|lia|]. intros i Hi. simpl.
    rewrite Hpre, Hold, !list_lookup_fmap, lookup_seq_lt by lia.
    rewrite lookup_replicate_2 by lia. repeat split; lia. }
  destruct (for_fold _ _ _ _) as [e s'|e s']; [discriminate Hloop|done].
Qed.

End ReadLoops.

(** ** Frames: a line followed by the terminator *)

Section Frames.
Context {F : Type} `{PyFloatOps F}.

Lemma len_terminator : len TERMINATOR = 2%Z.
Proof. reflexivity. Qed.

Lemma framed_line (s : SelTemperature F) line :
  len (line ++ TERMINATOR) = _read_line_size s ->
  framed s (line ++ TERMINATOR) = true.
Proof.
  intros Hlen. unfold framed.
  change (len TERMINATOR) with (Z.of_nat 2).
  rewrite slice_last by lia.
  rewrite length_app. simpl. replace (length line + 2 - 2) with (length line) by lia.
  rewrite drop_app_length. rewrite bool_decide_true by done.
  apply andb_true_intro; split; [done|]. by apply Z.eqb_eq.
Qed.

Lemma fields_line (s : SelTemperature F) line :
  fields s (line ++ TERMINATOR)
  = PyStr.split ","%char (Z.of_nat (_channels s) - 1) line.
Proof.
  unfold fields. change (len TERMINATOR) with (Z.of_nat 2).
  rewrite slice_but_last by lia.
  rewrite length_app. simpl. replace (length line + 2 - 2) with (length line) by lia.
  by rewrite take_app_length.
Qed.

(** A line that fails either half of the framing test is not framed. *)
Lemma not_framed (s : SelTemperature F) ser :
  PyStr.slice (Some (- len TERMINATOR)%Z) None ser <> TERMINATOR
  \/ len ser <> _read_line_size s ->
  framed s ser = false.
Proof.
  intros [Hterm|Hlen]; unfold framed.
  - by rewrite bool_decide_false.
  - apply andb_false_intro2. by apply Z.eqb_neq.
Qed.

(** In a line of the expected length whose fields are a preamble of at
    least four characters followed by nine characters, every preamble has
    exactly four. *)
Lemma tight_fields (pre : nat -> pystr) sep k line (vs : list pystr) n :
  (forall i, 4 <= length (pre i)) ->
  length vs = n ->
  Forall (fun v => length v = 9) vs ->
  PyStr.split sep k line = imap (fun i v => pre i ++ v) vs ->
  length line + 1 = 14 * n ->
  forall i, i < n -> length (pre i) = 4.
Proof.
  intros Hpre Hn Hvs Hsplit Hlen i Hi.
  pose proof (split_lengths sep k line) as Hsum.
  rewrite Hsplit, length_imap, Hn in Hsum.
  assert (Forall (fun x => x = 13)
            (length <$> imap (fun i v => pre i ++ v) vs)) as Hall.
  { apply sum_list_tight.
    - apply Forall_lookup. intros j x.
      rewrite list_lookup_fmap, list_lookup_imap.
      destruct (vs !! j) as [v|] eqn:Hv; simpl; [|done].
      intros [= <-]. rewrite length_app.
      rewrite (Forall_lookup_1 _ _ _ _ Hvs Hv). specialize (Hpre j). lia.
    - rewrite length_fmap, length_imap, Hn. lia. }
  destruct (lookup_lt_is_Some_2 vs i) as [v Hv]; [lia|].
  assert (length (pre i ++ v) = 13) as H13.
  { eapply (Forall_lookup_1 _ _ i _ Hall).
    by rewrite list_lookup_fmap, list_lookup_imap, Hv. }
  rewrite length_app, (Forall_lookup_1 _ _ _ _ Hvs Hv) in H13. lia.
Qed.

(** A field made of either preamble of its channel, four characters long,
    and a nine-character value that [float] parses. *)
Lemma field_accepted i (p v : pystr) f :
  length p = 4 ->
  p = preamble i \/ p = old_preamble i ->
  length v = 9 ->
  py_float v = Some f ->
  accepted i (p ++ v) = true /\ value_text (p ++ v) = v.
Proof.
  intros Hp Hor Hv Hf.
  assert (take 4 (p ++ v) = p) as Htake
    by (rewrite <- Hp; apply take_app_length).
  assert (drop 4 (p ++ v) = v) as Hdrop
    by (rewrite <- Hp; apply drop_app_length).
  assert (value_text (p ++ v) = v) as Hval.
  { unfold value_text. change PREAMBLE_SIZE with (Z.of_nat 4).
    by rewrite slice_from. }
  split; [|done].
  assert (forall q, q = p -> truthy (_test_val q (p ++ v)) = true) as Hq.
  { intros q ->. unfold _test_val.
    change (Some 0%Z) with (Some (Z.of_nat 0)).
    change (PREAMBLE_SIZE + VALUE_SIZE + len DELIMITER - 1)%Z
      with (Z.of_nat 13).
    change PREAMBLE_SIZE with (Z.of_nat 4).
    rewrite !slice_between by lia. simpl (_ - _).
    rewrite drop_0, Htake, Hdrop.
    rewrite bool_decide_true by done.
    rewrite take_ge by lia. by rewrite Hf. }
  unfold accepted. destruct Hor as [->| ->].
  - by rewrite Hq.
  - rewrite (Hq (old_preamble i)) by done. apply orb_true_r.
Qed.

Lemma status_after_id ser temps l err :
  (forall i t e, i ∈ l -> temps !! i = Some t ->
                 field_status ser i t e = e) ->
  status_after ser temps l err = err.
Proof.
  unfold status_after. revert err.
  induction l as [|i l IH]; intros err Hid; simpl; [done|].
  rewrite IH by (intros; apply Hid; [by right|done]).
  destruct (temps !! i) eqn:Ht; [|done].
  apply Hid; [by left|done].
Qed.

Lemma loop_message_not_ok ser e : loop_message ser e -> e <> lit "OK".
Proof. by intros [-> | ->]. Qed.

Lemma msg_framing_not_ok ser : msg_framing ser <> lit "OK".
Proof. done. Qed.

Lemma field_status_cases ser i t e :
  field_status ser i t e = e \/ loop_message ser (field_status ser i t e).
Proof.
  unfold field_status, loop_message.
  destruct (accepted i t); [|auto].
  destruct (bool_decide _); [|auto].
  destruct (py_float _); auto.
Qed.

Lemma status_after_keeps_message ser temps l e :
  loop_message ser e -> loop_message ser (status_after ser temps l e).
Proof.
  unfold status_after. revert e.
  induction l as [|i l IH]; intros e He; simpl; [done|].
  apply IH. destruct (temps !! i) as [t|]; [|done].
  destruct (field_status_cases ser i t e) as [-> | ?]; done.
Qed.

Lemma status_after_message ser temps l err i t :
  i ∈ l ->
  temps !! i = Some t ->
  (forall e, loop_message ser (field_status ser i t e)) ->
  loop_message ser (status_after ser temps l err).
Proof.
  intros Hin Ht Hmsg. revert err.
  induction l as [|j l IH]; intros err; [by apply elem_of_nil in Hin|].
  destruct (decide (j = i)) as [->|Hne].
  - simpl. rewrite Ht. unfold status_after in *.
    by apply status_after_keeps_message.
  - apply elem_of_cons in Hin as [->|Hin]; [done|].
    simpl. apply (IH Hin).
Qed.

(** A field that is rejected, or accepted with a text that [float] does
    not parse and that is not the unconnected text, sets a message. *)
Lemma field_status_failure ser i t e :
  accepted i t = false
  \/ (value_text t <> SENSOR_UNCONNECTED_VAL
      /\ py_float (value_text t) = None) ->
  loop_message ser (field_status ser i t e).
Proof.
  unfold field_status, loop_message. intros [-> | [Hne ->]]; [auto|].
  destruct (accepted i t); [|auto].
  rewrite bool_decide_true by done. auto.
Qed.

Lemma decode_field_default i t :
  accepted i t = false
  \/ value_text t = SENSOR_UNCONNECTED_VAL
  \/ py_float (value_text t) = None ->
  decode_field i t = DEFAULT_VAL.
Proof.
  unfold decode_field. intros [-> | [-> | ->]]; [done| |].
  - rewrite bool_decide_false by auto. by rewrite andb_false_r.
  - by destruct (_ && _).
Qed.

Lemma decode_field_value i t f :
  accepted i t = true ->
  value_text t <> SENSOR_UNCONNECTED_VAL ->
  py_float (value_text t) = Some f ->
  decode_field i t = PyFloat f.
Proof.
  unfold decode_field. intros -> Hne ->.
  by rewrite bool_decide_true by done.
Qed.

End Frames.

(** ** Construction establishes the invariant, [read] keeps it *)

Section Invariant.
Context {F : Type} `{PyFloatOps F}.
Variable SerialReader_init : pystr -> MockTemperatureSensor F -> option exn.

Lemma init_channels n : forall a (s0 : SelTemperature F),
  foldl init_channel s0 (seq a n)
  = mkSel (name s0) (_channels s0) (comport s0)
      (temperature s0 ++ replicate n DEFAULT_VAL) (output s0)
      (_preamble_str s0 ++ (preamble <$> seq a n))
      (_old_preamble_str s0 ++ (old_preamble <$> seq a n))
      (_tmp_temperature s0 ++ replicate n DEFAULT_VAL)
      (_read_line_size s0) (_instances s0) (_devices s0).
Proof.
  induction n as [|n IH]; intros a s0; simpl.
  - rewrite !app_nil_r. by destruct s0.
  - rewrite IH. unfold init_channel. simpl.
    by rewrite <- !app_assoc.
Qed.

Lemma init_returns name dev n :
  SerialReader_init name dev = None ->
  SelTemperature_init SerialReader_init name dev n
  = inr (constructed name dev n).
Proof.
  intros Hbase. unfold SelTemperature_init. rewrite Hbase.
  rewrite !bool_decide_true by apply lookup_empty.
  by rewrite init_channels.
Qed.

Lemma init_wf name dev n s :
  SelTemperature_init SerialReader_init name dev n = inr s -> wf s.
Proof.
  unfold SelTemperature_init.
  destruct (SerialReader_init name dev); [done|].
  rewrite !bool_decide_true by apply lookup_empty.
  rewrite init_channels. intros [= <-].
  split; simpl; try done; by rewrite length_replicate.
Qed.

Lemma constructed_wf nm (dev : MockTemperatureSensor F) n :
  wf (constructed nm dev n).
Proof. split; simpl; try done; by rewrite length_replicate. Qed.

Lemma start_wf (s : SelTemperature F) : wf s -> wf (state_after (start s)).
Proof. intros [? ? ? ? ?]. by split. Qed.

Lemma wf_set_lists (s : SelTemperature F) out temp tmp :
  wf s ->
  length temp = _channels s ->
  length tmp = _channels s ->
  wf (set_output out (set_temperature temp (set_tmp_temperature tmp s))).
Proof. intros [? ? ? ? ?] ? ?. by split. Qed.

(** Whatever the transport answered, a [read] that returns leaves the
    invariant in place. *)
Lemma read_wf now response (s s' : SelTemperature F) :
  wf s ->
  (fst response = lit "OK" -> framed s (snd response) = true ->
   length (fields s (snd response)) = _channels s) ->
  read now response s = Return tt s' -> wf s'.
Proof.
  intros Hwf Hfields. destruct response as [err ser]. simpl in Hfields.
  destruct (decide (err = lit "OK")) as [->|Hne].
  - destruct (framed s ser) eqn:Hfr.
    + rewrite read_framed by auto. intros [= <-].
      apply wf_set_lists; [done| |]; rewrite length_imap; auto.
    + rewrite read_not_framed by auto. intros [= <-].
      rewrite <- (set_same s) at 2.
      replace (set_tmp_temperature (replicate (_channels s) DEFAULT_VAL)
                 (set_temperature (temperature s)
                    (set_tmp_temperature (_tmp_temperature s) s)))
        with (set_temperature (temperature s)
                (set_tmp_temperature
                   (replicate (_channels s) DEFAULT_VAL) s))
        by (by destruct s).
      apply wf_set_lists; [done|by destruct Hwf|by rewrite length_replicate].
  - rewrite read_not_framed by auto. intros [= <-].
    rewrite <- (set_same s) at 2.
    replace (set_tmp_temperature (replicate (_channels s) DEFAULT_VAL)
               (set_temperature (temperature s)
                  (set_tmp_temperature (_tmp_temperature s) s)))
      with (set_temperature (temperature s)
              (set_tmp_temperature
                 (replicate (_channels s) DEFAULT_VAL) s))
      by (by destruct s).
    apply wf_set_lists; [done|by destruct Hwf|by rewrite length_replicate].
Qed.

End Invariant.

(** ** Frames whose every field is accepted *)

Section AcceptedFrames.
Context {F : Type} `{PyFloatOps F}.

Lemma line_length (s : SelTemperature F) line :
  wf s ->
  len (line ++ TERMINATOR) = read_line_size_of (_channels s) ->
  length line + 1 = 14 * _channels s.
Proof.
  intros _.
  unfold read_line_size_of, PREAMBLE_SIZE, VALUE_SIZE, DELIMITER, len.
  rewrite length_app. simpl. lia.
Qed.

Lemma read_accepted_frame (pre : nat -> pystr) (s : SelTemperature F)
    now line (vs : list pystr) (fs : list F) :
  wf s ->
  (forall i, pre i = preamble i \/ pre i = old_preamble i) ->
  len (line ++ TERMINATOR) = read_line_size_of (_channels s) ->
  PyStr.split ","%char (Z.of_nat (_channels s) - 1) line
    = imap (fun i v => pre i ++ v) vs ->
  length vs = _channels s ->
  Forall2 (fun v f => length v = 9 /\ py_float v = Some f) vs fs ->
  read now (lit "OK", line ++ TERMINATOR) s
  = Return tt
      (set_output
         (PyFloat now :: PyStr (lit "OK") :: zip_with channel_value vs fs)
         (set_temperature (zip_with channel_value vs fs)
            (set_tmp_temperature (zip_with channel_value vs fs) s))).
Proof.
  intros Hwf Hpre Hlen Hsplit Hn Hvs.
  assert (forall i, i < _channels s -> length (pre i) = 4) as Hfour.
  { eapply (tight_fields pre _ _ line vs); eauto.
    - intros i. destruct (Hpre i) as [-> | ->];
        [apply length_preamble | apply length_old_preamble].
    - eapply Forall2_Forall_l; [exact Hvs|].
      apply Forall_true. by intros v f [? _].
    - by apply line_length. }
  assert (forall i v, vs !! i = Some v ->
            exists f, fs !! i = Some f
              /\ accepted i (pre i ++ v) = true
              /\ value_text (pre i ++ v) = v
              /\ py_float v = Some f) as Hfield.
  { intros i v Hv.
    destruct (Forall2_lookup_l _ _ _ _ _ Hvs Hv) as (f & Hf & Hv9 & Hpf).
    exists f. split; [done|].
    destruct (field_accepted i (pre i) v f) as [Ha Ht]; auto.
    apply Hfour. rewrite <- Hn. by eapply lookup_lt_Some. }
  rewrite read_framed; rewrite ?fields_line, ?Hsplit, ?length_imap;
    try done; [|apply framed_line; by rewrite (wf_size _ Hwf)].
  assert (imap decode_field (imap (fun i v => pre i ++ v) vs)
          = zip_with channel_value vs fs) as ->.
  { apply list_eq. intros i.
    rewrite !list_lookup_imap, lookup_zip_with.
    destruct (vs !! i) as [v|] eqn:Hv; simpl; [|done].
    destruct (Hfield i v Hv) as (f & -> & Ha & Ht & Hpf). simpl.
    unfold decode_field, channel_value. rewrite Ha, Ht, Hpf. simpl.
    destruct (bool_decide_reflect (v = SENSOR_UNCONNECTED_VAL)).
    - by rewrite bool_decide_false by auto.
    - by rewrite bool_decide_true by auto. }
  rewrite status_after_id; [done|].
  intros i t e _. rewrite list_lookup_imap.
  destruct (vs !! i) as [v|] eqn:Hv; simpl; [|done].
  intros [= <-].
  destruct (Hfield i v Hv) as (f & _ & Ha & Ht & Hpf).
  unfold field_status. rewrite Ha, Ht, Hpf.
  by destruct (bool_decide _).
Qed.

End AcceptedFrames.

(** ** The decoder on well-formed and on ill-framed lines *)

Section DecoderProperties.
Context {F : Type} `{PyFloatOps F}.

(** C1: a line with transport status OK that ends with the terminator, has
    the expected length and whose fields are, for each channel [i] in
    order, the current preamble of [i] followed by a nine-character text
    that [float] parses and that is not the unconnected text, makes [read]
    return a sample with status OK whose values are the parsed floats in
    channel order. *)
Theorem read_current_frame (s : SelTemperature F) (now : F) (line : pystr)
    (vs : list pystr) (fs : list F) :
  wf s ->
  len (line ++ TERMINATOR) = _read_line_size s ->
  PyStr.split ","%char (Z.of_nat (_channels s) - 1) line
    = imap (fun i v => preamble i ++ v) vs ->
  length vs = _channels s ->
  Forall2 (fun v f => length v = 9 /\ py_float v = Some f
                      /\ v <> SENSOR_UNCONNECTED_VAL) vs fs ->
  exists s',
    read now (lit "OK", line ++ TERMINATOR) s = Return tt s'
    /\ sample_status s' = Some (PyStr (lit "OK"))
    /\ sample_values s' = PyFloat <$> fs.
Proof.
  intros Hwf Hlen Hsplit Hn Hvs.
  rewrite (wf_size _ Hwf) in Hlen.
  eexists. split.
  - apply (read_accepted_frame preamble s now line vs fs); auto.
    eapply Forall2_impl; [exact Hvs|]. by intros v f (? & ? & ?).
  - split; [done|]. unfold sample_values. simpl. rewrite drop_0.
    clear -Hvs. induction Hvs as [|v f vs fs (_ & _ & Hne) _ IH]; [done|].
    csimpl. rewrite IH. unfold channel_value at 1.
    by rewrite bool_decide_false by done.
Qed.

(** C4: when the length of the line is not the expected one, or its end
    is not the terminator, [read] leaves every entry of the persisted
    [temperature] list as it was, and the status of the sample is not OK. *)
Theorem framing_error_keeps_temperature (s : SelTemperature F) (now : F)
    (err ser : pystr) :
  wf s ->
  len ser <> _read_line_size s
  \/ PyStr.slice (Some (- len TERMINATOR)%Z) None ser <> TERMINATOR ->
  exists s' e,
    read now (err, ser) s = Return tt s'
    /\ temperature s' = temperature s
    /\ sample_status s' = Some (PyStr e)
    /\ e <> lit "OK".
Proof.
  intros Hwf Hbad.
  assert (framed s ser = false) as Hfr
    by (apply not_framed; destruct Hbad; auto).
  eexists. eexists. split; [apply read_not_framed; auto|].
  split; [done|]. split; [done|].
  destruct (bool_decide_reflect (err = lit "OK")); [|done].
  apply msg_framing_not_ok.
Qed.

(** C5: a line whose fields carry the legacy preambles (channel number
    plus one) and a line whose fields carry the current preambles, with
    the same nine-character parseable value texts, both of the expected
    length and terminated, make [read] return the same outcome: the same
    status, OK, and the same values. *)
Theorem legacy_frame_equivalent (s : SelTemperature F) (now : F)
    (legacy current : pystr) (vs : list pystr) (fs : list F) :
  wf s ->
  len (legacy ++ TERMINATOR) = _read_line_size s ->
  len (current ++ TERMINATOR) = _read_line_size s ->
  PyStr.split ","%char (Z.of_nat (_channels s) - 1) legacy
    = imap (fun i v => old_preamble i ++ v) vs ->
  PyStr.split ","%char (Z.of_nat (_channels s) - 1) current
    = imap (fun i v => preamble i ++ v) vs ->
  length vs = _channels s ->
  Forall2 (fun v f => length v = 9 /\ py_float v = Some f) vs fs ->
  read now (lit "OK", legacy ++ TERMINATOR) s
    = read now (lit "OK", current ++ TERMINATOR) s
  /\ exists s',
       read now (lit "OK", legacy ++ TERMINATOR) s = Return tt s'
       /\ sample_status s' = Some (PyStr (lit "OK"))
       /\ sample_values s' = zip_with channel_value vs fs.
Proof.
  intros Hwf Hlegacy Hcurrent Hsl Hsc Hn Hvs.
  rewrite (wf_size _ Hwf) in Hlegacy, Hcurrent.
  rewrite (read_accepted_frame old_preamble s now legacy vs fs),
          (read_accepted_frame preamble s now current vs fs); auto.
  split; [done|]. eexists. split; [done|]. by split.
Qed.

Lemma rejected_unparsed i t :
  py_float (value_window t) = None -> accepted i t = false.
Proof.
  intros Hw. unfold accepted, _test_val. fold (value_window t).
  rewrite Hw. by do 2 destruct (bool_decide _).
Qed.

(** C2, as the code has it: in a line with transport status OK, the
    terminator, the expected length and one field per channel, a channel
    whose field carries the unconnected text or a text that [float] does
    not parse gets the default value "9999.9990", in the persisted list and
    in the sample, whatever it held before. An unparsed text sets an error
    status; the unconnected text sets none, so that the status is OK when
    every field is accepted and is parsed or unconnected. Every other
    channel whose field is accepted, parsed and not unconnected holds its
    newly parsed value. *)
Theorem channel_failure_defaults (s : SelTemperature F) (now : F)
    (line : pystr) (i : nat) (t : pystr) :
  let temps := PyStr.split ","%char (Z.of_nat (_channels s) - 1) line in
  wf s ->
  len (line ++ TERMINATOR) = _read_line_size s ->
  length temps = _channels s ->
  temps !! i = Some t ->
  value_text t = SENSOR_UNCONNECTED_VAL
  \/ py_float (value_text t) = None
  \/ py_float (value_window t) = None ->
  exists s' e,
    read now (lit "OK", line ++ TERMINATOR) s = Return tt s'
    /\ sample_status s' = Some (PyStr e)
    /\ temperature s' !! i = Some DEFAULT_VAL
    /\ sample_values s' !! i = Some DEFAULT_VAL
    /\ (py_float (value_window t) = None
        \/ (value_text t <> SENSOR_UNCONNECTED_VAL
            /\ py_float (value_text t) = None) ->
        e <> lit "OK")
    /\ ((forall j tj, temps !! j = Some tj ->
            accepted j tj = true
            /\ (value_text tj = SENSOR_UNCONNECTED_VAL
                \/ is_Some (py_float (value_text tj)))) ->
        e = lit "OK")
    /\ (forall j tj f, temps !! j = Some tj ->
           accepted j tj = true ->
           value_text tj <> SENSOR_UNCONNECTED_VAL ->
           py_float (value_text tj) = Some f ->
           temperature s' !! j = Some (PyFloat f)
           /\ sample_values s' !! j = Some (PyFloat f)).
Proof.
  intros temps Hwf Hlen Hn Ht Hbad.
  assert (fields s (line ++ TERMINATOR) = temps) as Hfields
    by apply fields_line.
  eexists. eexists. split.
  { apply read_framed; [done|by apply framed_line|by rewrite Hfields]. }
  rewrite Hfields. unfold sample_values. simpl. rewrite drop_0.
  split; [done|].
  assert (decode_field i t = DEFAULT_VAL) as Hdef.
  { apply decode_field_default.
    destruct Hbad as [?|[?|?]]; eauto using rejected_unparsed. }
  split; [by rewrite list_lookup_imap, Ht; simpl; rewrite Hdef|].
  split; [by rewrite list_lookup_imap, Ht; simpl; rewrite Hdef|].
  split; [|split].
  - intros Herr. apply (loop_message_not_ok (line ++ TERMINATOR)).
    apply (status_after_message _ _ _ _ i t); [|done|].
    + apply elem_of_seq. apply lookup_lt_Some in Ht. lia.
    + intros e. apply field_status_failure.
      destruct Herr as [?|?]; eauto using rejected_unparsed.
  - intros Hall. apply status_after_id. intros j tj e _ Hj.
    destruct (Hall j tj Hj) as [Hacc Hval].
    unfold field_status. rewrite Hacc.
    destruct (bool_decide_reflect (value_text tj <> SENSOR_UNCONNECTED_VAL))
      as [Hne|_]; [|done].
    destruct Hval as [?|[f ->]]; done.
  - intros j tj f Hj Hacc Hne Hf.
    rewrite list_lookup_imap, Hj. simpl.
    by rewrite (decode_field_value j tj f).
Qed.

End DecoderProperties.

Section StartProperties.
Context {F : Type} `{PyFloatOps F}.
Variable SerialReader_init : pystr -> MockTemperatureSensor F -> option exn.

(** C9: on a decoder constructed for any number of channels (so for every
    number from 1 on), [start] sets the expected line length of the
    transport to [channels * (4 + 9 + 1) - 1 + 2], its terminator to the
    two characters CR LF, and its read timeout to the float product of
    [channels + 1] and the literal [0.167]. *)
Theorem start_configures_transport (nm : pystr)
    (dev : MockTemperatureSensor F) (channels : nat) (s : SelTemperature F) :
  SelTemperature_init SerialReader_init nm dev channels = inr s ->
  exists s',
    start s = Return tt s'
    /\ line_size (comport s')
       = Some (Z.of_nat channels * (4 + 9 + 1) - 1 + 2)%Z
    /\ terminator (comport s') = Some ["013"%char; "010"%char]
    /\ read_timeout (comport s')
       = Some (float_mul (float_of_int (Z.of_nat channels + 1))
                 float_const_0_167).
Proof.
  intros Hinit.
  assert (_channels s = channels /\ _read_line_size s
          = read_line_size_of channels) as [Hc Hs].
  { revert Hinit. unfold SelTemperature_init.
    destruct (SerialReader_init nm dev); [done|].
    rewrite !bool_decide_true by apply lookup_empty.
    by intros [= <-]. }
  eexists. split; [done|]. simpl. rewrite Hc, Hs. done.
Qed.

End StartProperties.

(** ** The scenarios, evaluated *)

Module ScenarioFacts.
Import Scenario.

Lemma decoder4_read_wf : wf decoder4_read.
Proof. split; vm_compute; reflexivity. Qed.

Lemma decoder4_read_temperature :
  temperature decoder4_read = PyFloat <$> floats4.
Proof. vm_compute. reflexivity. Qed.

Lemma values4_parse :
  Forall2 (fun v f => length v = 9 /\ py_float v = Some f
                      /\ v <> SENSOR_UNCONNECTED_VAL) values4 floats4.
Proof. repeat constructor; by vm_compute. Qed.

(** The scenario of four channels, current preambles, values 18.1234,
    20.0000, 25.5000 and 29.9999. *)
Lemma read_current_frame_witness :
  exists s',
    read t1 (lit "OK", line_current ++ TERMINATOR) decoder4 = Return tt s'
    /\ sample_status s' = Some (PyStr (lit "OK"))
    /\ sample_values s' = PyFloat <$> floats4.
Proof.
  apply (read_current_frame decoder4 t1 line_current values4 floats4).
  - apply constructed_wf.
  - reflexivity.
  - vm_compute. reflexivity.
  - reflexivity.
  - exact values4_parse.
Defined.

(** The same line with LF LF for a terminator, after the decoder has read
    the four values. *)
Lemma framing_error_keeps_temperature_witness :
  exists s' e,
    read t2 (lit "OK", line_current ++ LFLF) decoder4_read = Return tt s'
    /\ temperature s' = temperature decoder4_read
    /\ sample_status s' = Some (PyStr e)
    /\ e <> lit "OK".
Proof.
  apply (framing_error_keeps_temperature decoder4_read t2 (lit "OK")
           (line_current ++ LFLF)).
  - exact decoder4_read_wf.
  - right. by vm_compute.
Defined.

(** The same four values under the preambles C01 to C04 and C00 to C03. *)
Lemma legacy_frame_equivalent_witness :
  read t1 (lit "OK", line_legacy ++ TERMINATOR) decoder4
    = read t1 (lit "OK", line_current ++ TERMINATOR) decoder4
  /\ exists s',
       read t1 (lit "OK", line_legacy ++ TERMINATOR) decoder4 = Return tt s'
       /\ sample_status s' = Some (PyStr (lit "OK"))
       /\ sample_values s' = zip_with channel_value values4 floats4.
Proof.
  apply (legacy_frame_equivalent decoder4 t1 line_legacy line_current
           values4 floats4).
  - apply constructed_wf.
  - reflexivity.
  - reflexivity.
  - vm_compute. reflexivity.
  - vm_compute. reflexivity.
  - reflexivity.
  - eapply Forall2_impl; [exact values4_parse|]. by intros v f (? & ? & ?).
Defined.

(** The four-channel decoder, as its construction returns it, on binary64:
    lines of 57 characters and a timeout of 5 times 0.167, which is the
    float 0.8350000000000001. *)
Lemma start_configures_transport_witness :
  SelTemperature_init base_returns (lit "MockSensor") device 4 = inr decoder4
  /\ exists s',
       start decoder4 = Return tt s'
       /\ line_size (comport s') = Some 57%Z
       /\ terminator (comport s') = Some ["013"%char; "010"%char]
       /\ read_timeout (comport s')
          = Some (PrimFloat.mul 5%float 0.167%float)
       /\ read_timeout (comport s') = Some 0.83500000000000008%float.
Proof.
  assert (SelTemperature_init base_returns (lit "MockSensor") device 4
          = inr decoder4) as Hinit by (by apply init_returns).
  split; [exact Hinit|].
  destruct (start_configures_transport base_returns (lit "MockSensor")
              device 4 decoder4 Hinit)
    as (s' & Hstart & Hsize & Hterm & Htimeout).
  exists s'.
  split; [exact Hstart|]. split; [exact Hsize|]. split; [exact Hterm|].
  split; rewrite Htimeout; vm_compute; reflexivity.
Defined.

(** Four channels: a line is 57 characters long, and the timeout is the
    float product of 5 and 0.167. *)
Example start_four_channels :
  comport (state_after (start decoder4))
  = mkSensor 1 (lit "MockSensor") (Some 57%Z) (Some TERMINATOR)
      (Some 19200%Z) (Some 0.83500000000000008%float).
Proof. vm_compute. reflexivity. Qed.

(** Channel 2 garbled, after the decoder has read the four values. *)
Lemma channel_failure_defaults_witness :
  exists s' e,
    read t2 (lit "OK", line_garbled2 ++ TERMINATOR) decoder4_read
      = Return tt s'
    /\ sample_status s' = Some (PyStr e)
    /\ temperature s' !! 2 = Some DEFAULT_VAL
    /\ sample_values s' !! 2 = Some DEFAULT_VAL
    /\ e <> lit "OK"
    /\ temperature s' !! 3 = Some (PyFloat 29.9999%float).
Proof.
  destruct (channel_failure_defaults decoder4_read t2 line_garbled2 2
              (lit "C02=00XX.5000"))
    as (s' & e & Hread & Hst & Htemp & Hval & Herr & _ & Hothers).
  - exact decoder4_read_wf.
  - reflexivity.
  - reflexivity.
  - vm_compute. reflexivity.
  - right. left. vm_compute. reflexivity.
  - exists s', e.
    split; [exact Hread|]. split; [exact Hst|]. split; [exact Htemp|].
    split; [exact Hval|]. split.
    + apply Herr. left. vm_compute. reflexivity.
    + apply (Hothers 3 (lit "C03=0029.9999")); by vm_compute.
Defined.

(** C2, as stated, fails: after a read that left 25.5 in channel 2, a line
    whose channel 2 is garbled exposes the default in channel 2, not 25.5;
    a line whose channel 2 carries the unconnected text does the same and
    its status is OK. *)
Lemma channel_failure_overwrites :
  temperature decoder4_read !! 2 = Some (PyFloat 25.5%float)
  /\ sample_of (read t2 (lit "OK", line_garbled2 ++ TERMINATOR)
                  decoder4_read)
     = Some [PyFloat t2;
             PyStr (msg_channel (line_garbled2 ++ TERMINATOR));
             PyFloat 18.1234%float; PyFloat 20%float;
             PyStr (lit "9999.9990"); PyFloat 29.9999%float]
  /\ sample_of (read t2 (lit "OK", line_unconnected2 ++ TERMINATOR)
                  decoder4_read)
     = Some [PyFloat t2; PyStr (lit "OK");
             PyFloat 18.1234%float; PyFloat 20%float;
             PyStr (lit "9999.9990"); PyFloat 29.9999%float]
  /\ ~ (exists s' e,
          read t2 (lit "OK", line_unconnected2 ++ TERMINATOR) decoder4_read
            = Return tt s'
          /\ sample_status s' = Some (PyStr e)
          /\ e <> lit "OK"
          /\ sample_values s' !! 2 = temperature decoder4_read !! 2).
Proof.
  split; [by vm_compute|]. split; [by vm_compute|]. split; [by vm_compute|].
  intros (s' & e & Hread & Hst & Hne & _).
  assert (sample_of (read t2 (lit "OK", line_unconnected2 ++ TERMINATOR)
                       decoder4_read)
          = Some [PyFloat t2; PyStr (lit "OK");
                  PyFloat 18.1234%float; PyFloat 20%float;
                  PyStr (lit "9999.9990"); PyFloat 29.9999%float]) as Hs
    by (by vm_compute).
  rewrite Hread in Hs. simpl in Hs. unfold sample_status in Hst.
  rewrite (Some_inj _ _ Hs) in Hst. simpl in Hst.
  injection Hst as <-. by apply Hne.
Qed.

(** C3 on the code: after a read that left the four values in the
    persisted list, a line that ends in LF LF gives a sample with the
    framing message as status and those four values, not the default. *)
Theorem framing_error_exposes_last_values :
  temperature decoder4_read = PyFloat <$> floats4
  /\ sample_of (read t2 (lit "OK", line_current ++ LFLF) decoder4_read)
     = Some (PyFloat t2 :: PyStr (msg_framing (line_current ++ LFLF))
             :: (PyFloat <$> floats4)).
Proof. split; by vm_compute. Qed.

(** C6 on the code: a two-channel line of the expected length with its
    terminator and no comma splits into one field; the turn for channel 1
    indexes the second field and [read] raises [IndexError]. The poll loop
    does not catch it: it ends before any sample reaches the callback, the
    well-formed line behind it unread. *)
Theorem short_split_raises :
  len (line_no_delimiter ++ TERMINATOR) = _read_line_size decoder2
  /\ exception_of (read t1 (lit "OK", line_no_delimiter ++ TERMINATOR)
                     decoder2)
     = Some IndexError
  /\ loop_exception
       (_run [(t1, (lit "OK", line_no_delimiter ++ TERMINATOR));
              (t2, (lit "OK", line_two ++ TERMINATOR))]
          (instrument2, []))
     = Some IndexError
  /\ delivered
       (_run [(t1, (lit "OK", line_no_delimiter ++ TERMINATOR));
              (t2, (lit "OK", line_two ++ TERMINATOR))]
          (instrument2, []))
     = [].
Proof. repeat split; by vm_compute. Qed.

(** C7 on the code: [__init__] looks the name and the device up in the two
    dicts it has just created, so the lookups never succeed: whenever the
    base initialiser returns, the construction returns the instance, for
    every name and device, those of an earlier construction included. The
    same holds for [EssInstrument]. *)
Theorem duplicate_binding_not_rejected :
  (forall (nm : pystr) (dev : MockTemperatureSensor float) (n : nat),
     SelTemperature_init base_returns nm dev n = inr (constructed nm dev n))
  /\ (forall (nm : pystr) (reader : SelTemperature float),
        exists e, EssInstrument_init nm reader = inr e).
Proof.
  split.
  - intros nm dev n. by apply init_returns.
  - intros nm reader. unfold EssInstrument_init.
    rewrite !bool_decide_true by apply lookup_empty. by eexists.
Qed.

(** C8 on the code: the sample has the timestamp, the status and one value
    per channel in order, but the value of a channel that kept the default
    is the string "9999.9990", not a float. *)
Theorem default_entry_is_a_string :
  sample_of (read t1 (lit "OK", line_unconnected2 ++ TERMINATOR) decoder4)
  = Some [PyFloat t1; PyStr (lit "OK");
          PyFloat 18.1234%float; PyFloat 20%float;
          PyStr (lit "9999.9990"); PyFloat 29.9999%float].
Proof. by vm_compute. Qed.

End ScenarioFacts.

(** ** Decimal numerals and the preambles *)

Section DigitFacts.

Lemma nat_of_digit_char d : d < 10 -> nat_of_ascii (PyStr.digit_char d) = 48 + d.
Proof. intros Hd. unfold PyStr.digit_char. apply nat_ascii_embedding. lia. Qed.

Lemma digit_char_not_comma d : d < 10 -> PyStr.digit_char d <> ","%char.
Proof.
  intros Hd Heq. apply (f_equal nat_of_ascii) in Heq.
  rewrite nat_of_digit_char in Heq by done.
  change (nat_of_ascii ","%char) with 44 in Heq. lia.
Qed.

Lemma dec_digits_small fuel n :
  n < 10 -> PyStr.dec_digits (S fuel) n = [PyStr.digit_char n].
Proof.
  intros Hn. simpl. destruct (Nat.ltb_spec n 10); [done|lia].
Qed.

Lemma dec_digits_large fuel n :
  10 <= n ->
  PyStr.dec_digits (S fuel) n
  = PyStr.dec_digits fuel (n / 10) ++ [PyStr.digit_char (n mod 10)].
Proof.
  intros Hn. simpl. destruct (Nat.ltb_spec n 10); [lia|done].
Qed.

Lemma dec_digits_not_nil fuel n : PyStr.dec_digits (S fuel) n <> [].
Proof.
  destruct (decide (n < 10)) as [Hn|Hn].
  - by rewrite dec_digits_small.
  - rewrite dec_digits_large by lia. by destruct (PyStr.dec_digits _ _).
Qed.

Lemma length_of_nat_1 n : n < 10 -> length (PyStr.of_nat n) = 1.
Proof. intros Hn. unfold PyStr.of_nat. by rewrite dec_digits_small. Qed.

Lemma length_of_nat_2 n : 10 <= n < 100 -> length (PyStr.of_nat n) = 2.
Proof.
  intros Hn. unfold PyStr.of_nat. rewrite dec_digits_large by lia.
  destruct n as [|n]; [lia|].
  rewrite dec_digits_small by (apply Nat.Div0.div_lt_upper_bound; lia).
  done.
Qed.

Lemma length_of_nat_3 n : 100 <= n -> 3 <= length (PyStr.of_nat n).
Proof.
  intros Hn. unfold PyStr.of_nat. rewrite dec_digits_large by lia.
  destruct n as [|n]; [lia|].
  assert (10 <= S n / 10) as Hq by (apply Nat.div_le_lower_bound; lia).
  rewrite dec_digits_large by done.
  destruct n as [|n]; [lia|].
  pose proof (dec_digits_not_nil n (S (S n) / 10 / 10)) as Hne.
  rewrite !length_app. cbn [length].
  destruct (PyStr.dec_digits (S n) _); [done|cbn [length]; lia].
Qed.

Lemma length_format_02_lt n : n < 100 -> length (PyStr.format_02 n) = 2.
Proof.
  intros Hn. unfold PyStr.format_02.
  rewrite length_app, repeat_length.
  destruct (decide (n < 10)).
  - rewrite length_of_nat_1 by done. done.
  - rewrite length_of_nat_2 by lia. done.
Qed.

Lemma length_format_02_ge n : 100 <= n -> 3 <= length (PyStr.format_02 n).
Proof.
  intros Hn. unfold PyStr.format_02. rewrite length_app.
  pose proof (length_of_nat_3 n Hn). lia.
Qed.

Lemma length_preamble_lt i : i < 100 -> length (preamble i) = 4.
Proof.
  intros Hi. unfold preamble. rewrite !length_app.
  rewrite length_format_02_lt by done. done.
Qed.

Lemma length_old_preamble_lt i : i + 1 < 100 -> length (old_preamble i) = 4.
Proof.
  intros Hi. unfold old_preamble. rewrite !length_app.
  rewrite length_format_02_lt by done. done.
Qed.

Lemma length_preamble_ge i : 100 <= i -> 5 <= length (preamble i).
Proof.
  intros Hi. unfold preamble. rewrite !length_app.
  pose proof (length_format_02_ge i Hi). simpl. lia.
Qed.

Lemma length_old_preamble_ge i : 100 <= i + 1 -> 5 <= length (old_preamble i).
Proof.
  intros Hi. unfold old_preamble. rewrite !length_app.
  pose proof (length_format_02_ge (i + 1) Hi). simpl. lia.
Qed.

Lemma digits_value_app s c :
  digits_value (s ++ [c]) = 10 * digits_value s + (nat_of_ascii c - 48).
Proof. unfold digits_value. by rewrite foldl_app. Qed.

Lemma digits_value_dec fuel : forall n,
  n < fuel -> digits_value (PyStr.dec_digits fuel n) = n.
Proof.
  induction fuel as [|fuel IH]; intros n Hn; [lia|].
  destruct (decide (n < 10)) as [Hs|Hs].
  - rewrite dec_digits_small by done. unfold digits_value. cbn [foldl].
    rewrite nat_of_digit_char by done. lia.
  - rewrite dec_digits_large by lia. rewrite digits_value_app.
    rewrite IH by (apply Nat.Div0.div_lt_upper_bound; lia).
    rewrite nat_of_digit_char by (apply Nat.mod_upper_bound; lia).
    pose proof (Nat.div_mod_eq n 10). lia.
Qed.

Lemma digits_value_zeros k s :
  digits_value (repeat "0"%char k ++ s) = digits_value s.
Proof.
  unfold digits_value. rewrite foldl_app.
  replace (foldl (fun acc c => 10 * acc + (nat_of_ascii c - 48)) 0
             (repeat "0"%char k)) with 0; [done|].
  induction k as [|k IH]; [done|]. cbn [repeat foldl].
  change (10 * 0 + (nat_of_ascii "0"%char - 48)) with 0. exact IH.
Qed.

(** The channel number can be read back from the two-digit text. *)
Lemma digits_value_format_02 n : digits_value (PyStr.format_02 n) = n.
Proof.
  unfold PyStr.format_02. rewrite digits_value_zeros.
  apply digits_value_dec. lia.
Qed.

Lemma format_02_inj n m : PyStr.format_02 n = PyStr.format_02 m -> n = m.
Proof.
  intros Heq. apply (f_equal digits_value) in Heq.
  by rewrite !digits_value_format_02 in Heq.
Qed.

Lemma preamble_inj i j : preamble i = preamble j -> i = j.
Proof.
  unfold preamble. intros Heq.
  apply app_inv_head, app_inv_tail in Heq. by apply format_02_inj.
Qed.

Lemma old_preamble_shift i : old_preamble i = preamble (i + 1).
Proof. done. Qed.

Lemma dec_digits_no_comma fuel : forall n,
  Forall (fun c => c <> ","%char) (PyStr.dec_digits fuel n).
Proof.
  induction fuel as [|fuel IH]; intros n; [constructor|].
  destruct (decide (n < 10)) as [Hs|Hs].
  - rewrite dec_digits_small by done.
    repeat constructor. by apply digit_char_not_comma.
  - rewrite dec_digits_large by lia. apply Forall_app. split; [apply IH|].
    repeat constructor. apply digit_char_not_comma.
    apply Nat.mod_upper_bound. lia.
Qed.

Lemma preamble_no_comma i : Forall (fun c => c <> ","%char) (preamble i).
Proof.
  unfold preamble, PyStr.format_02, PyStr.of_nat.
  repeat (apply Forall_app; split); try (repeat constructor; done).
  - apply Forall_forall. intros c Hc%list_elem_of_In%repeat_spec. by subst.
  - apply dec_digits_no_comma.
Qed.

Lemma format_02d_nat n : format_02d (Z.of_nat n) = PyStr.format_02 n.
Proof.
  unfold format_02d. destruct (Z.ltb_spec (Z.of_nat n) 0); [lia|].
  by rewrite Nat2Z.id.
Qed.

End DigitFacts.

(** ** [split] and [join] *)

Section SplitFacts.

(** The number of fields of a split: one more than the separators, of which
    at most [maxsplit] count when [maxsplit] is not negative. *)
Lemma split_length sep : forall s k,
  length (PyStr.split sep k s)
  = S (if (k <? 0)%Z then occurrences sep s
       else Nat.min (occurrences sep s) (Z.to_nat k)).
Proof.
  unfold occurrences.
  induction s as [|c s IH]; intros k; simpl.
  - by destruct (k <? 0)%Z.
  - rewrite filter_cons.
    destruct (Z.eqb_spec k 0) as [->|Hk]; simpl.
    + specialize (IH 0%Z). pose proof (split_not_nil sep 0 s) as Hne.
      destruct (PyStr.split sep 0 s) as [|f fs]; [done|].
      simpl in *. rewrite IH. by rewrite !Nat.min_0_r.
    + destruct (Ascii.eqb_spec c sep) as [->|Hc].
      * rewrite decide_True by done. simpl. rewrite IH.
        destruct (Z.ltb_spec k 0), (Z.ltb_spec (k - 1) 0); try lia.
        replace (Z.to_nat k) with (S (Z.to_nat (k - 1))) by lia.
        done.
      * rewrite decide_False by done.
        specialize (IH k). pose proof (split_not_nil sep k s) as Hne.
        destruct (PyStr.split sep k s) as [|f fs]; [done|].
        simpl in *. by rewrite IH.
Qed.

Lemma split_zero sep s : PyStr.split sep 0 s = [s].
Proof.
  induction s as [|c s IH]; simpl; [done|]. by rewrite IH.
Qed.

Lemma split_no_sep sep k f :
  Forall (fun c => c <> sep) f -> PyStr.split sep k f = [f].
Proof.
  induction 1 as [|c f Hc _ IH]; simpl; [done|].
  destruct (Ascii.eqb_spec c sep); [done|].
  rewrite andb_false_r. by rewrite IH.
Qed.

Lemma split_app_sep sep k f rest :
  Forall (fun c => c <> sep) f ->
  k <> 0%Z ->
  PyStr.split sep k (f ++ sep :: rest)
  = f :: PyStr.split sep (k - 1) rest.
Proof.
  intros Hf Hk. induction Hf as [|c f Hc _ IH]; simpl.
  - rewrite Ascii.eqb_refl. by destruct (Z.eqb_spec k 0).
  - destruct (Ascii.eqb_spec c sep); [done|].
    rewrite andb_false_r. by rewrite IH.
Qed.

(** Joining fields that hold no comma and splitting the line at one comma
    less than there are fields gives the fields back. *)
Lemma split_join (fs : list pystr) :
  fs <> [] ->
  Forall (Forall (fun c => c <> ","%char)) fs ->
  PyStr.split ","%char (Z.of_nat (length fs) - 1) (join_fields fs) = fs.
Proof.
  intros Hne Hfs. induction Hfs as [|f fs Hf Hfs IH]; [done|].
  destruct fs as [|g fs].
  - simpl. apply split_zero.
  - change (join_fields (f :: g :: fs))
      with (f ++ ","%char :: join_fields (g :: fs)).
    rewrite split_app_sep by (simpl; done || lia).
    f_equal.
    replace (Z.of_nat (length (f :: g :: fs)) - 1 - 1)%Z
      with (Z.of_nat (length (g :: fs)) - 1)%Z by (cbn [length]; lia).
    by apply IH.
Qed.

Lemma length_join (fs : list pystr) w :
  fs <> [] ->
  Forall (fun f => length f = w) fs ->
  length (join_fields fs) + 1 = (w + 1) * length fs.
Proof.
  intros Hne Hfs. induction Hfs as [|f fs Hf Hfs IH]; [done|].
  destruct fs as [|g fs].
  - simpl. lia.
  - change (join_fields (f :: g :: fs))
      with (f ++ ","%char :: join_fields (g :: fs)).
    rewrite length_app. cbn [length] in *. specialize (IH ltac:(done)). lia.
Qed.

End SplitFacts.

(** ** When [read] returns and what it then leaves *)

Section ReadFacts.
Context {F : Type} `{PyFloatOps F}.

(** A framed line is the line before the terminator and the terminator. *)
Lemma framed_inv (s : SelTemperature F) ser :
  framed s ser = true ->
  ser = PyStr.slice None (Some (- len TERMINATOR)%Z) ser ++ TERMINATOR
  /\ len ser = _read_line_size s.
Proof.
  unfold framed. intros [Hterm Hlen]%andb_true_iff.
  apply bool_decide_eq_true in Hterm. apply Z.eqb_eq in Hlen.
  split; [|done].
  change (len TERMINATOR) with (Z.of_nat 2) in *.
  rewrite slice_last in Hterm by lia. rewrite slice_but_last by lia.
  rewrite <- Hterm. by rewrite take_drop.
Qed.

Lemma framed_channels_pos (s : SelTemperature F) ser :
  wf s -> framed s ser = true -> 1 <= _channels s.
Proof.
  intros Hwf Hfr. destruct (framed_inv s ser Hfr) as [Hser Hlen].
  rewrite (wf_size _ Hwf) in Hlen. rewrite Hser in Hlen.
  revert Hlen.
  unfold read_line_size_of, PREAMBLE_SIZE, VALUE_SIZE, DELIMITER, len.
  rewrite length_app. simpl. lia.
Qed.

(** The fields of a framed line: one more than its commas, and never more
    than there are channels. *)
Lemma fields_length (s : SelTemperature F) ser :
  1 <= _channels s ->
  length (fields s ser)
  = S (Nat.min (commas (PyStr.slice None (Some (- len TERMINATOR)%Z) ser))
         (_channels s - 1)).
Proof.
  intros Hn. unfold fields, commas. rewrite split_length.
  destruct (Z.ltb_spec (Z.of_nat (_channels s) - 1) 0); [lia|].
  do 2 f_equal. lia.
Qed.

Lemma short_split_commas (s : SelTemperature F) err ser :
  wf s ->
  short_split s (err, ser)
  <-> err = lit "OK" /\ framed s ser = true
      /\ commas (PyStr.slice None (Some (- len TERMINATOR)%Z) ser) + 1
         < _channels s.
Proof.
  intros Hwf. unfold short_split. simpl.
  split; intros (Herr & Hfr & Hlen); (split; [done|split; [done|]]);
    pose proof (framed_channels_pos s ser Hwf Hfr);
    rewrite fields_length in * by done; lia.
Qed.

Lemma short_split_dec (s : SelTemperature F) (response : pystr * pystr) :
  short_split s response \/ ~ short_split s response.
Proof.
  unfold short_split.
  destruct (decide (response.1 = lit "OK")); [|tauto].
  destruct (framed s response.2); [|right; intros (_ & ? & _); done].
  destruct (decide (length (fields s response.2) < _channels s)); tauto.
Qed.

(** The state that a returning [read] leaves, in the two cases. *)
Lemma read_returns_cases now err ser (s s' : SelTemperature F) :
  wf s ->
  read now (err, ser) s = Return tt s' ->
  (( err <> lit "OK" \/ framed s ser = false )
   /\ s' = set_output
             (PyFloat now
              :: PyStr (if bool_decide (err = lit "OK") then msg_framing ser
                        else err)
              :: temperature s)
             (set_tmp_temperature (replicate (_channels s) DEFAULT_VAL) s))
  \/ (err = lit "OK" /\ framed s ser = true
      /\ length (fields s ser) = _channels s
      /\ s' = set_output
                (PyFloat now
                 :: PyStr (status_after ser (fields s ser)
                             (seq 0 (_channels s)) (lit "OK"))
                 :: imap decode_field (fields s ser))
                (set_temperature (imap decode_field (fields s ser))
                   (set_tmp_temperature
                      (imap decode_field (fields s ser)) s))).
Proof.
  intros Hwf Hread.
  destruct (decide (err = lit "OK")) as [->|Hne].
  - destruct (framed s ser) eqn:Hfr.
    + right. pose proof (framed_channels_pos s ser Hwf Hfr) as Hpos.
      destruct (decide (length (fields s ser) < _channels s)) as [Hlt|Hge].
      * pose proof (read_short_split now ser s Hwf Hfr Hlt) as Hexn.
        rewrite Hread in Hexn. done.
      * assert (length (fields s ser) = _channels s) as Hlen
          by (rewrite fields_length in * by done; lia).
        rewrite read_framed in Hread by done.
        injection Hread as <-. done.
    + left. rewrite read_not_framed in Hread by auto.
      injection Hread as <-. auto.
  - left. rewrite read_not_framed in Hread by auto.
    injection Hread as <-. auto.
Qed.

Lemma read_returns_not_short now response (s : SelTemperature F) :
  wf s ->
  ~ short_split s response ->
  exists s', read now response s = Return tt s'.
Proof.
  intros Hwf Hns. destruct response as [err ser].
  destruct (decide (err = lit "OK")) as [->|Hne];
    [|eexists; by apply read_not_framed; auto].
  destruct (framed s ser) eqn:Hfr;
    [|eexists; by apply read_not_framed; auto].
  pose proof (framed_channels_pos s ser Hwf Hfr) as Hpos.
  eexists. apply read_framed; [done|done|].
  assert (~ length (fields s ser) < _channels s)
    by (intros ?; apply Hns; done).
  rewrite fields_length in * by done. lia.
Qed.

Lemma read_raises_short now response (s : SelTemperature F) :
  wf s ->
  short_split s response ->
  exception_of (read now response s) = Some IndexError.
Proof.
  intros Hwf (Herr & Hfr & Hlen). destruct response as [err ser].
  simpl in *. subst err. by apply read_short_split.
Qed.

(** What a returning [read] keeps. *)
Lemma read_keeps (s s' : SelTemperature F) (now : F)
    (response : pystr * pystr) :
  wf s ->
  read now response s = Return tt s' ->
  _channels s' = _channels s
  /\ _read_line_size s' = _read_line_size s
  /\ wf s'.
Proof.
  intros Hwf Hread. destruct response as [err ser].
  destruct (read_returns_cases now err ser s s' Hwf Hread)
    as [(_ & ->)|(_ & _ & Hlen & ->)].
  - destruct Hwf as [? ? ? ? ?].
    repeat split; simpl; try done. by rewrite length_replicate.
  - destruct Hwf as [? ? ? ? ?].
    repeat split; simpl; try done; by rewrite length_imap.
Qed.

Lemma read_output (s s' : SelTemperature F) (now : F)
    (response : pystr * pystr) :
  wf s ->
  read now response s = Return tt s' ->
  exists e, output s' = PyFloat now :: PyStr e :: temperature s'.
Proof.
  intros Hwf Hread. destruct response as [err ser].
  destruct (read_returns_cases now err ser s s' Hwf Hread)
    as [(_ & ->)|(_ & _ & Hlen & ->)]; by eexists.
Qed.

(** X1: [read] raises, and then [IndexError], exactly on a response with
    status OK whose line passes the framing test and has fewer commas than
    the channels need; on every other response it returns. *)
Theorem read_raises_iff (s : SelTemperature F) (now : F) (err ser : pystr) :
  wf s ->
  let short :=
    err = lit "OK" /\ framed s ser = true
    /\ commas (PyStr.slice None (Some (- len TERMINATOR)%Z) ser) + 1
       < _channels s in
  (exception_of (read now (err, ser) s) = Some IndexError <-> short)
  /\ ((exists s', read now (err, ser) s = Return tt s') <-> ~ short).
Proof.
  intros Hwf short.
  assert (short -> exception_of (read now (err, ser) s) = Some IndexError)
    as Hraise.
  { intros Hshort. apply (short_split_commas s err ser Hwf) in Hshort.
    destruct Hshort as (Herr & Hfr & Hlen). simpl in *. subst err.
    by apply read_short_split. }
  assert (~ short -> exists s', read now (err, ser) s = Return tt s')
    as Hreturn.
  { intros Hns.
    destruct (decide (err = lit "OK")) as [->|Hne];
      [|eexists; by apply read_not_framed; auto].
    destruct (framed s ser) eqn:Hfr;
      [|eexists; by apply read_not_framed; auto].
    pose proof (framed_channels_pos s ser Hwf Hfr) as Hpos.
    eexists. apply read_framed; [done|done|].
    rewrite fields_length by done.
    assert (~ commas (PyStr.slice None (Some (- len TERMINATOR)%Z) ser) + 1
              < _channels s) by (intros ?; apply Hns; done).
    lia. }
  assert (short \/ ~ short) as Hdec.
  { destruct (short_split_dec s (err, ser)) as [Hs|Hs]; [left|right].
    - by apply (short_split_commas s err ser Hwf).
    - intros Hshort. apply Hs. by apply (short_split_commas s err ser Hwf). }
  split; split.
  - intros Hexn. destruct Hdec as [?|Hns]; [done|].
    destruct (Hreturn Hns) as [s' Hs']. rewrite Hs' in Hexn. done.
  - exact Hraise.
  - intros [s' Hs'] Hshort. apply Hraise in Hshort.
    rewrite Hs' in Hshort. done.
  - exact Hreturn.
Qed.

(** X2: a [read] that returns leaves a sample of the timestamp, a status
    and the persisted list, which has one entry per channel; the number of
    channels, the expected line size and the invariant are kept. *)
Theorem read_returns_sample (s s' : SelTemperature F) (now : F)
    (response : pystr * pystr) :
  wf s ->
  read now response s = Return tt s' ->
  (exists e, output s' = PyFloat now :: PyStr e :: temperature s')
  /\ length (temperature s') = _channels s
  /\ _channels s' = _channels s
  /\ _read_line_size s' = _read_line_size s
  /\ wf s'.
Proof.
  intros Hwf Hread.
  destruct (read_keeps s s' now response Hwf Hread) as (Hn & Hsize & Hwf').
  split; [exact (read_output s s' now response Hwf Hread)|].
  split; [rewrite <- Hn; by destruct Hwf'|].
  by repeat (split; [done|]).
Qed.

(** X3: a transport status other than OK is passed on as the status of the
    sample, with the persisted values, which stay as they were; the line is
    not looked at. *)
Theorem transport_error_passes (s : SelTemperature F) (now : F)
    (err ser : pystr) :
  wf s ->
  err <> lit "OK" ->
  exists s',
    read now (err, ser) s = Return tt s'
    /\ output s' = PyFloat now :: PyStr err :: temperature s
    /\ temperature s' = temperature s
    /\ forall ser', read now (err, ser') s = Return tt s'.
Proof.
  intros Hwf Hne. eexists. split; [apply read_not_framed; auto|].
  rewrite bool_decide_false by done.
  split; [done|]. split; [done|].
  intros ser'. rewrite read_not_framed by auto.
  by rewrite bool_decide_false by done.
Qed.

(** X4: on a framed line with status OK the sample does not depend on what
    the decoder held before: two decoders of the same number of channels
    give the same sample, or both raise. *)
Theorem framed_read_forgets (s1 s2 : SelTemperature F) (now : F)
    (ser : pystr) :
  wf s1 -> wf s2 ->
  _channels s1 = _channels s2 ->
  framed s1 ser = true ->
  sample_of (read now (lit "OK", ser) s1)
  = sample_of (read now (lit "OK", ser) s2).
Proof.
  intros Hwf1 Hwf2 Hn Hfr1.
  assert (framed s2 ser = true) as Hfr2.
  { unfold framed in *. by rewrite (wf_size _ Hwf2), <- Hn, <- (wf_size _ Hwf1). }
  assert (fields s2 ser = fields s1 ser) as Hf
    by (unfold fields; by rewrite Hn).
  destruct (decide (length (fields s1 ser) < _channels s1)) as [Hlt|Hge].
  - pose proof (read_short_split now ser s1 Hwf1 Hfr1 Hlt) as H1.
    pose proof (read_short_split now ser s2 Hwf2 Hfr2) as H2.
    rewrite Hf, <- Hn in H2. specialize (H2 Hlt).
    destruct (read now (lit "OK", ser) s1), (read now (lit "OK", ser) s2);
      done.
  - pose proof (framed_channels_pos s1 ser Hwf1 Hfr1) as Hpos.
    assert (length (fields s1 ser) = _channels s1) as Hlen
      by (rewrite fields_length in * by done; lia).
    rewrite !read_framed by (done || by rewrite Hf, <- Hn).
    simpl. by rewrite Hf, Hn.
Qed.

End ReadFacts.

(** ** Which fields are accepted *)

Section AcceptedFacts.
Context {F : Type} `{PyFloatOps F}.

Lemma test_val_truthy (pre t : pystr) :
  truthy (_test_val pre t) = true ->
  take 4 t = pre /\ is_Some (py_float (value_window t)).
Proof.
  unfold _test_val. fold (value_window t).
  change (Some 0%Z) with (Some (Z.of_nat 0)).
  change PREAMBLE_SIZE with (Z.of_nat 4).
  rewrite slice_between by lia. simpl (_ - _). rewrite drop_0.
  destruct (bool_decide_reflect (take 4 t = pre)); [|done].
  destruct (py_float _); [eauto|done].
Qed.

Lemma accepted_take (i : nat) (t : pystr) :
  accepted i t = true ->
  (take 4 t = preamble i \/ take 4 t = old_preamble i)
  /\ is_Some (py_float (value_window t)).
Proof.
  unfold accepted. intros [Hacc|Hacc]%orb_true_iff;
    apply test_val_truthy in Hacc as [Htake Hparse]; auto.
Qed.

Lemma accepted_below_100 (i : nat) (t : pystr) :
  accepted i t = true -> i < 100.
Proof.
  intros [[Htake|Htake] _]%accepted_take;
    apply (f_equal length) in Htake;
    assert (length (take 4 t) <= 4) by (rewrite length_take; lia).
  - destruct (decide (i < 100)); [done|].
    pose proof (length_preamble_ge i). lia.
  - destruct (decide (i + 1 < 100)); [lia|].
    pose proof (length_old_preamble_ge i). lia.
Qed.

(** X6: a field is accepted for channel [i] only if it has at least four
    characters, the text that [_test_val] converts parses, and [i] is below
    100: the preambles of the channels from 100 on have five characters
    and are compared with the first four of the field. *)
Theorem accepted_bounds (i : nat) (t : pystr) :
  accepted i t = true ->
  4 <= length t /\ i < 100 /\ is_Some (py_float (value_window t)).
Proof.
  intros Hacc. pose proof (accepted_below_100 i t Hacc) as Hi.
  apply accepted_take in Hacc as [Htake Hparse].
  split; [|by split].
  assert (length (take 4 t) <= length t) by (rewrite length_take; lia).
  destruct Htake as [Htake|Htake]; rewrite Htake in *.
  - pose proof (length_preamble i). lia.
  - pose proof (length_old_preamble i). lia.
Qed.

(** A field with the preamble of channel [j] is accepted for [i] only if
    [j] is [i] or [i + 1]. *)
Lemma accepted_preamble_inv (i j : nat) (v : pystr) :
  j < 100 ->
  accepted i (preamble j ++ v) = true -> j = i \/ j = i + 1.
Proof.
  intros Hj. pose proof (length_preamble_lt j Hj) as Hlen.
  unfold accepted. intros [Hacc|Hacc]%orb_true_iff;
    apply test_val_truthy in Hacc as [Htake _];
    rewrite <- Hlen, take_app_length in Htake.
  - left. by apply preamble_inj.
  - right. rewrite old_preamble_shift in Htake. by apply preamble_inj.
Qed.

(** X8: with a nine-character text that parses, the field that carries the
    preamble of channel [j] (below 100) is accepted for channel [i] exactly
    when [j] is [i] or [i + 1]: a field in the place of another channel is
    rejected, except for the neighbour that the legacy numbering allows. *)
Theorem accepted_preamble_iff (i j : nat) (v : pystr) (f : F) :
  j < 100 ->
  length v = 9 ->
  py_float v = Some f ->
  accepted i (preamble j ++ v) = true <-> j = i \/ j = i + 1.
Proof.
  intros Hj Hv Hf.
  pose proof (length_preamble_lt j Hj) as Hlen.
  split.
  - by apply accepted_preamble_inv.
  - intros [->| ->].
    + by destruct (field_accepted i (preamble i) v f) as [-> _]; auto.
    + rewrite <- old_preamble_shift in *.
      by destruct (field_accepted i (old_preamble i) v f) as [-> _]; auto.
Qed.

(** X5: on a framed line with status OK and one field per channel, the
    status of the sample is OK exactly when every field is accepted and its
    text is the unconnected text or parses. *)
Theorem status_ok_iff (s : SelTemperature F) (now : F) (line : pystr) :
  let temps := PyStr.split ","%char (Z.of_nat (_channels s) - 1) line in
  wf s ->
  len (line ++ TERMINATOR) = _read_line_size s ->
  length temps = _channels s ->
  exists s' e,
    read now (lit "OK", line ++ TERMINATOR) s = Return tt s'
    /\ sample_status s' = Some (PyStr e)
    /\ (e = lit "OK"
        <-> forall j tj, temps !! j = Some tj ->
              accepted j tj = true
              /\ (value_text tj = SENSOR_UNCONNECTED_VAL
                  \/ is_Some (py_float (value_text tj)))).
Proof.
  intros temps Hwf Hlen Hn.
  assert (fields s (line ++ TERMINATOR) = temps) as Hfields
    by apply fields_line.
  eexists. eexists. split.
  { apply read_framed; [done|by apply framed_line|by rewrite Hfields]. }
  rewrite Hfields. split; [done|]. split.
  - intros Hok j tj Hj.
    assert (j ∈ seq 0 (_channels s)) as Hin.
    { apply elem_of_seq. apply lookup_lt_Some in Hj. lia. }
    assert (~ loop_message (line ++ TERMINATOR)
              (status_after (line ++ TERMINATOR) temps
                 (seq 0 (_channels s)) (lit "OK"))) as Hnot.
    { intros Hmsg. by apply loop_message_not_ok in Hmsg. }
    destruct (accepted j tj) eqn:Hacc.
    + split; [done|].
      destruct (decide (value_text tj = SENSOR_UNCONNECTED_VAL)); [by left|].
      right. destruct (py_float (value_text tj)) eqn:Hpf; [by eexists|].
      exfalso. apply Hnot.
      apply (status_after_message _ _ _ _ j tj); [done|done|].
      intros e. apply field_status_failure. by right.
    + exfalso. apply Hnot.
      apply (status_after_message _ _ _ _ j tj); [done|done|].
      intros e. apply field_status_failure. by left.
  - intros Hall. apply status_after_id. intros j tj e _ Hj.
    destruct (Hall j tj Hj) as [Hacc Hval].
    unfold field_status. rewrite Hacc.
    destruct (bool_decide_reflect (value_text tj <> SENSOR_UNCONNECTED_VAL))
      as [Hne|_]; [|done].
    destruct Hval as [?|[f ->]]; done.
Qed.

(** X7: a decoder of more than 100 channels never gives a sample with
    status OK: channel 100 accepts no field. *)
Theorem over_100_channels_never_ok (s s' : SelTemperature F) (now : F)
    (response : pystr * pystr) :
  wf s ->
  100 < _channels s ->
  read now response s = Return tt s' ->
  exists e, sample_status s' = Some (PyStr e) /\ e <> lit "OK".
Proof.
  intros Hwf Hmany Hread. destruct response as [err ser].
  destruct (read_returns_cases now err ser s s' Hwf Hread)
    as [(Hbad & ->)|(_ & _ & Hlen & ->)].
  - eexists. split; [done|].
    destruct (bool_decide_reflect (err = lit "OK")) as [->|Hne]; [|done].
    apply msg_framing_not_ok.
  - eexists. split; [done|].
    destruct (lookup_lt_is_Some_2 (fields s ser) 100) as [t Ht]; [lia|].
    apply (loop_message_not_ok ser).
    apply (status_after_message _ _ _ _ 100 t); [|done|].
    + apply elem_of_seq. lia.
    + intros e. apply field_status_failure. left.
      destruct (accepted 100 t) eqn:Hacc; [|done].
      apply accepted_below_100 in Hacc. lia.
Qed.


End AcceptedFacts.

(** ** The mock's [readline], alone and in front of the decoder *)

Section MockFacts.
Context {F : Type} `{PyFloatOps F}.
Variable format_09_4f : F -> pystr.

Abbreviation mock_fields cfg draw l :=
  ((fun i => mock_field format_09_4f cfg (draw i) i) <$> l).

Lemma readline_loop_none cfg (dev : MockTemperatureSensor F) draw k :
  forall a resp,
  terminator dev = None ->
  a + k = mock_channels cfg ->
  1 <= k ->
  readline_loop format_09_4f cfg dev draw (seq a k) resp = inl TypeError.
Proof.
  induction k as [|k IH]; intros a resp Hterm Hlen Hk; [lia|].
  simpl. unfold format_temperature.
  destruct (bool_decide_reflect
              (Z.of_nat a = (Z.of_nat (mock_channels cfg) - 1)%Z)).
  - by rewrite Hterm.
  - apply IH; [done|lia|lia].
Qed.

Lemma readline_loop_some cfg (dev : MockTemperatureSensor F) draw t k :
  forall a resp,
  terminator dev = Some t ->
  a + k = mock_channels cfg ->
  1 <= k ->
  readline_loop format_09_4f cfg dev draw (seq a k) resp
  = inr (resp ++ join_fields (mock_fields cfg draw (seq a k)) ++ t).
Proof.
  induction k as [|k IH]; intros a resp Hterm Hlen Hk; [lia|].
  simpl readline_loop. unfold format_temperature.
  destruct (bool_decide_reflect
              (Z.of_nat a = (Z.of_nat (mock_channels cfg) - 1)%Z)).
  - rewrite Hterm. by assert (k = 0) as -> by lia.
  - rewrite IH by (done || lia).
    destruct k as [|k]; [lia|].
    csimpl. f_equal. by rewrite <- !app_assoc.
Qed.

Lemma readline_set cfg (dev : MockTemperatureSensor F) (draw : nat -> F) t :
  terminator dev = Some t ->
  1 <= mock_channels cfg ->
  readline format_09_4f cfg dev draw
  = inr (lit "OK",
         join_fields (mock_fields cfg draw (seq 0 (mock_channels cfg))) ++ t).
Proof.
  intros Hterm Hn. unfold readline.
  by rewrite (readline_loop_some cfg dev draw t) by (done || lia).
Qed.

(** X10: before [start] has given the mock its terminator, [readline] of
    a mock with at least one channel raises [TypeError]; with the
    terminator set it returns status OK and the channel texts joined by
    commas, the terminator behind them. *)
Theorem readline_outcomes cfg (dev : MockTemperatureSensor F)
    (draw : nat -> F) :
  1 <= mock_channels cfg ->
  readline format_09_4f cfg dev draw
  = match terminator dev with
    | None => inl TypeError
    | Some t =>
        inr (lit "OK",
             join_fields (mock_fields cfg draw (seq 0 (mock_channels cfg)))
             ++ t)
    end.
Proof.
  intros Hn. unfold readline.
  destruct (terminator dev) as [t|] eqn:Hterm.
  - by rewrite (readline_loop_some cfg dev draw t) by (done || lia).
  - by rewrite readline_loop_none by (done || lia).
Qed.

Lemma mock_field_current cfg temp i :
  count_offset cfg = 0%Z ->
  mock_field format_09_4f cfg temp i
  = preamble i ++ mock_value format_09_4f cfg temp i.
Proof.
  intros Hoff. unfold mock_field, mock_value, preamble.
  rewrite Hoff, Z.add_0_r, format_02d_nat.
  destruct (bool_decide _); by rewrite <- !app_assoc.
Qed.

Lemma mock_field_offset cfg temp i k :
  count_offset cfg = Z.of_nat k ->
  mock_field format_09_4f cfg temp i
  = preamble (i + k) ++ mock_value format_09_4f cfg temp i.
Proof.
  intros Hoff. unfold mock_field, mock_value, preamble.
  rewrite Hoff, <- Nat2Z.inj_add, format_02d_nat.
  destruct (bool_decide _); by rewrite <- !app_assoc.
Qed.

Lemma imap_fmap_seq {A B} (g : nat -> A -> B) (h : nat -> A) n :
  imap g (h <$> seq 0 n) = (fun i => g i (h i)) <$> seq 0 n.
Proof.
  apply list_eq. intros i.
  rewrite list_lookup_imap, !list_lookup_fmap.
  destruct (decide (i < n)).
  - by rewrite lookup_seq_lt by done.
  - by rewrite lookup_seq_ge by lia.
Qed.

(** The line of the mock whose numbering is shifted by [k], in front of a
    decoder of as many channels: its expected length, and its fields. *)
Lemma mock_line_geometry cfg draw (s : SelTemperature F) k :
  let n := _channels s in
  let vs := (fun i => mock_value format_09_4f cfg (draw i) i) <$> seq 0 n in
  let line := join_fields (mock_fields cfg draw (seq 0 n)) in
  wf s ->
  1 <= n ->
  count_offset cfg = Z.of_nat k ->
  n + k <= 100 ->
  Forall (fun v => length v = 9 /\ Forall (fun c => c <> ","%char) v) vs ->
  len (line ++ TERMINATOR) = read_line_size_of n
  /\ PyStr.split ","%char (Z.of_nat n - 1) line
     = imap (fun i v => preamble (i + k) ++ v) vs.
Proof.
  intros n vs line Hwf Hn Hoff Hmax Hvs.
  assert (mock_fields cfg draw (seq 0 n)
          = imap (fun i v => preamble (i + k) ++ v) vs) as Hfields.
  { unfold vs. rewrite imap_fmap_seq. apply list_fmap_ext.
    intros _ i _. by apply mock_field_offset. }
  assert (forall i v, vs !! i = Some v ->
            length v = 9 /\ Forall (fun c => c <> ","%char) v) as Hv
    by (intros i v; by apply (Forall_lookup_1 _ _ _ _ Hvs)).
  assert (length vs = n) as Hlen
    by (unfold vs; by rewrite length_fmap, length_seq).
  assert (mock_fields cfg draw (seq 0 n) <> []) as Hne.
  { intros Hnil. apply (f_equal length) in Hnil.
    rewrite length_fmap, length_seq in Hnil. simpl in Hnil. lia. }
  split.
  - assert (length line + 1 = 14 * n) as Hline.
    { unfold line.
      rewrite (length_join _ 13), length_fmap, length_seq; [done|done|].
      rewrite Hfields. apply Forall_lookup. intros i f.
      rewrite list_lookup_imap.
      destruct (vs !! i) as [v|] eqn:Hvi; [|done]. intros Hf.
      change (Some (preamble (i + k) ++ v) = Some f) in Hf.
      injection Hf as <-.
      change (length (preamble (i + k) ++ v) = 13).
      rewrite length_app, length_preamble_lt.
      + by destruct (Hv i v Hvi) as [-> _].
      + apply lookup_lt_Some in Hvi. lia. }
    unfold read_line_size_of, PREAMBLE_SIZE, VALUE_SIZE, DELIMITER, len.
    rewrite length_app. simpl. lia.
  - unfold line. rewrite <- Hfields.
    replace n with (length (mock_fields cfg draw (seq 0 n))) at 1
      by (by rewrite length_fmap, length_seq).
    apply split_join; [done|].
    rewrite Hfields. apply Forall_lookup. intros i f.
    rewrite list_lookup_imap.
    destruct (vs !! i) as [v|] eqn:Hvi; [|done]. intros Hf.
    change (Some (preamble (i + k) ++ v) = Some f) in Hf.
    injection Hf as <-.
    change (Forall (fun c => c <> ","%char) (preamble (i + k) ++ v)).
    apply Forall_app. split; [apply preamble_no_comma|].
    by destruct (Hv i v Hvi).
Qed.

(** X11: round trip through the transport. Once [start] has configured
    the mock, the line that [readline] returns for a mock that numbers its
    channels from 0 or from 1 is decoded by [read] of a decoder of as many
    channels with status OK, each channel holding the float of the text the
    mock wrote for it, provided that text has nine characters, no comma,
    and parses, and the last channel number is below 100. *)
Theorem mock_line_decodes cfg (draw : nat -> F) (s : SelTemperature F)
    (now : F) (fs : list F) :
  let n := _channels s in
  let vs := (fun i => mock_value format_09_4f cfg (draw i) i) <$> seq 0 n in
  let started := state_after (start s) in
  wf s ->
  1 <= n ->
  mock_channels cfg = n ->
  count_offset cfg = 0%Z \/ count_offset cfg = 1%Z ->
  (Z.of_nat n + count_offset cfg <= 100)%Z ->
  Forall (fun v => length v = 9 /\ Forall (fun c => c <> ","%char) v) vs ->
  Forall2 (fun v f => length v = 9 /\ py_float v = Some f) vs fs ->
  exists response s',
    readline format_09_4f cfg (comport started) draw = inr response
    /\ read now response started = Return tt s'
    /\ sample_status s' = Some (PyStr (lit "OK"))
    /\ sample_values s' = zip_with channel_value vs fs.
Proof.
  intros n vs started Hwf Hn Hcfg Hoff Hmax Hvs Hparse.
  assert (wf started) as Hwf' by (by apply start_wf).
  assert (exists k, count_offset cfg = Z.of_nat k /\ (k = 0 \/ k = 1)
                    /\ n + k <= 100) as (k & Hk & Hk01 & Hmax').
  { destruct Hoff as [Hoff|Hoff]; [exists 0|exists 1]; rewrite Hoff in *;
      (split; [done|split; [auto|lia]]). }
  destruct (mock_line_geometry cfg draw started k) as [Hlen Hsplit];
    try done.
  eexists. eexists. split.
  { rewrite (readline_set _ _ _ TERMINATOR) by (done || lia).
    by rewrite Hcfg. }
  split.
  { apply (read_accepted_frame (fun i => preamble (i + k)) started now _
             vs fs); try done.
    - intros i. destruct Hk01 as [-> | ->].
      + left. f_equal. lia.
      + right. by rewrite old_preamble_shift.
    - by unfold vs; rewrite length_fmap, length_seq. }
  done.
Qed.

Lemma status_after_last ser temps n err t :
  temps !! n = Some t ->
  status_after ser temps (seq 0 (S n)) err
  = field_status ser n t (status_after ser temps (seq 0 n) err).
Proof.
  intros Ht. unfold status_after. rewrite seq_S, foldl_app. simpl.
  by rewrite Ht.
Qed.

(** The line of a mock that numbers its channels from 2 or more, while the
    last channel number stays below 100: every field is rejected. *)
Lemma mock_offset_channel_message cfg (draw : nat -> F) (s : SelTemperature F)
    (now : F) (k : nat) :
  let n := _channels s in
  let vs := (fun i => mock_value format_09_4f cfg (draw i) i) <$> seq 0 n in
  let started := state_after (start s) in
  wf s ->
  1 <= n ->
  mock_channels cfg = n ->
  count_offset cfg = Z.of_nat k ->
  2 <= k ->
  n + k <= 100 ->
  Forall (fun v => length v = 9 /\ Forall (fun c => c <> ","%char) v) vs ->
  exists ser s',
    readline format_09_4f cfg (comport started) draw = inr (lit "OK", ser)
    /\ read now (lit "OK", ser) started = Return tt s'
    /\ sample_status s' = Some (PyStr (msg_channel ser))
    /\ sample_values s' = replicate n DEFAULT_VAL.
Proof.
  intros n vs started Hwf Hn Hcfg Hk Hk2 Hmax Hvs.
  assert (wf started) as Hwf' by (by apply start_wf).
  destruct (mock_line_geometry cfg draw started k) as [Hlen Hsplit];
    try done.
  set (line := join_fields (mock_fields cfg draw (seq 0 n))) in *.
  assert (fields started (line ++ TERMINATOR)
          = imap (fun i v => preamble (i + k) ++ v) vs) as Hfields
    by (rewrite fields_line; exact Hsplit).
  assert (length vs = n) as Hlvs
    by (unfold vs; by rewrite length_fmap, length_seq).
  assert (forall i t, fields started (line ++ TERMINATOR) !! i = Some t ->
            accepted i t = false) as Hrej.
  { intros i t. rewrite Hfields, list_lookup_imap.
    destruct (vs !! i) as [v|] eqn:Hv; [|done]. intros Ht.
    change (Some (preamble (i + k) ++ v) = Some t) in Ht.
    injection Ht as <-.
    destruct (accepted i (preamble (i + k) ++ v)) eqn:Hacc; [|done].
    apply lookup_lt_Some in Hv.
    apply accepted_preamble_inv in Hacc; lia. }
  exists (line ++ TERMINATOR). eexists. split.
  { rewrite (readline_set _ _ _ TERMINATOR) by (done || lia).
    by rewrite Hcfg. }
  split.
  { apply read_framed; [done| |].
    - apply framed_line. by rewrite (wf_size _ Hwf').
    - by rewrite Hfields, length_imap. }
  unfold sample_values. simpl. rewrite drop_0. split.
  - assert (exists m, n = S m) as [m Hm] by (exists (n - 1); lia).
    destruct (lookup_lt_is_Some_2 (fields started (line ++ TERMINATOR)) m)
      as [t Ht]; [rewrite Hfields, length_imap; lia|].
    unfold sample_status. simpl. do 2 f_equal.
    change (_channels s) with n. rewrite Hm.
    rewrite (status_after_last _ _ _ _ t) by done.
    unfold field_status. by rewrite (Hrej m t Ht).
  - apply list_eq. intros i. rewrite list_lookup_imap.
    destruct (fields started (line ++ TERMINATOR) !! i) as [t|] eqn:Ht.
    + simpl. rewrite decode_field_default by (left; by apply (Hrej i t)).
      apply lookup_lt_Some in Ht. rewrite Hfields, length_imap, Hlvs in Ht.
      by rewrite lookup_replicate_2.
    + apply lookup_ge_None in Ht. rewrite Hfields, length_imap, Hlvs in Ht.
      simpl. symmetry. apply lookup_replicate_None. lia.
Qed.

Lemma sum_list_above (c : nat) (l : list nat) x :
  Forall (fun y => c <= y) l ->
  x ∈ l ->
  c < x ->
  c * length l < sum_list l.
Proof.
  intros Hl Hx Hc. induction Hl as [|y l Hy Hl IH]; [by apply elem_of_nil in Hx|].
  assert (c * length l <= sum_list l) as Hlow.
  { clear -Hl. induction Hl; simpl; lia. }
  apply elem_of_cons in Hx as [->|Hx]; simpl.
  - lia.
  - specialize (IH Hx). lia.
Qed.

Lemma length_join_sum (fs : list pystr) :
  fs <> [] ->
  length (join_fields fs) + 1 = sum_list (length <$> fs) + length fs.
Proof.
  induction fs as [|f fs IH]; intros Hne; [done|].
  destruct fs as [|g fs].
  - simpl. lia.
  - change (join_fields (f :: g :: fs))
      with (f ++ ","%char :: join_fields (g :: fs)).
    rewrite length_app. specialize (IH ltac:(done)).
    rewrite fmap_cons.
    change (sum_list (length f :: (length <$> g :: fs)))
      with (length f + sum_list (length <$> g :: fs)).
    change (length (","%char :: join_fields (g :: fs)))
      with (S (length (join_fields (g :: fs)))).
    change (length (f :: g :: fs)) with (S (length (g :: fs))).
    lia.
Qed.

(** The same line when the last channel number reaches 100: it is longer
    than the decoder expects. *)
Lemma mock_line_too_long cfg draw (s : SelTemperature F) k :
  let n := _channels s in
  let vs := (fun i => mock_value format_09_4f cfg (draw i) i) <$> seq 0 n in
  let line := join_fields (mock_fields cfg draw (seq 0 n)) in
  1 <= n ->
  count_offset cfg = Z.of_nat k ->
  100 < n + k ->
  Forall (fun v => length v = 9 /\ Forall (fun c => c <> ","%char) v) vs ->
  len (line ++ TERMINATOR) <> read_line_size_of n.
Proof.
  intros n vs line Hn Hoff Hmax Hvs.
  assert (mock_fields cfg draw (seq 0 n)
          = (fun i => preamble (i + k)
                      ++ mock_value format_09_4f cfg (draw i) i)
            <$> seq 0 n) as Hfields.
  { apply list_fmap_ext. intros _ i _. by apply mock_field_offset. }
  assert (forall i, i < n ->
            length (mock_value format_09_4f cfg (draw i) i) = 9) as Hv.
  { intros i Hi.
    assert (vs !! i = Some (mock_value format_09_4f cfg (draw i) i)) as Hvi
      by (unfold vs; by rewrite list_lookup_fmap, lookup_seq_lt by done).
    by destruct (Forall_lookup_1 _ _ _ _ Hvs Hvi). }
  assert (mock_fields cfg draw (seq 0 n) <> []) as Hne.
  { intros Hnil. apply (f_equal length) in Hnil.
    rewrite length_fmap, length_seq in Hnil. simpl in Hnil. lia. }
  pose proof (length_join_sum _ Hne) as Hsum. fold line in Hsum.
  rewrite length_fmap, length_seq in Hsum.
  assert (13 * n < sum_list (length <$> mock_fields cfg draw (seq 0 n)))
    as Hlong.
  { replace n with (length (length <$> mock_fields cfg draw (seq 0 n))) at 1
      by (by rewrite !length_fmap, length_seq).
    apply (sum_list_above 13 _
             (length (preamble (n - 1 + k)
                      ++ mock_value format_09_4f cfg (draw (n - 1)) (n - 1)))).
    - rewrite Hfields. apply Forall_lookup. intros i x.
      rewrite !list_lookup_fmap.
      destruct (decide (i < n)) as [Hi|Hi].
      + rewrite lookup_seq_lt by done. intros [= <-].
        rewrite length_app, Hv by done.
        rewrite ?length_app. cbn [length].
        pose proof (length_format_02 (i + k)). lia.
      + by rewrite lookup_seq_ge by lia.
    - rewrite Hfields. apply list_elem_of_lookup. exists (n - 1).
      rewrite !list_lookup_fmap, lookup_seq_lt by lia. done.
    - rewrite length_app, Hv by lia.
      pose proof (length_preamble_ge (n - 1 + k)). lia. }
  unfold read_line_size_of, PREAMBLE_SIZE, VALUE_SIZE, DELIMITER, len.
  rewrite length_app. simpl. lia.
Qed.

(** X12: a mock that numbers its channels from 2 or more is never decoded
    with status OK. While its last channel number stays below 100, [read]
    returns the channel message as status and the default in every channel;
    from 100 on the line is longer than expected, and [read] returns the
    framing message with the values that the decoder held. *)
Theorem mock_offset_rejected cfg (draw : nat -> F) (s : SelTemperature F)
    (now : F) (k : nat) :
  let n := _channels s in
  let vs := (fun i => mock_value format_09_4f cfg (draw i) i) <$> seq 0 n in
  let started := state_after (start s) in
  wf s ->
  1 <= n ->
  mock_channels cfg = n ->
  count_offset cfg = Z.of_nat k ->
  2 <= k ->
  Forall (fun v => length v = 9 /\ Forall (fun c => c <> ","%char) v) vs ->
  exists ser s',
    readline format_09_4f cfg (comport started) draw = inr (lit "OK", ser)
    /\ read now (lit "OK", ser) started = Return tt s'
    /\ (exists e, sample_status s' = Some (PyStr e) /\ e <> lit "OK")
    /\ (n + k <= 100 ->
        sample_status s' = Some (PyStr (msg_channel ser))
        /\ sample_values s' = replicate n DEFAULT_VAL)
    /\ (100 < n + k ->
        sample_status s' = Some (PyStr (msg_framing ser))
        /\ sample_values s' = temperature s).
Proof.
  intros n vs started Hwf Hn Hcfg Hk Hk2 Hvs.
  destruct (decide (n + k <= 100)) as [Hle|Hgt].
  - destruct (mock_offset_channel_message cfg draw s now k)
      as (ser & s' & Hline & Hread & Hstatus & Hvalues); try done.
    exists ser, s'. split; [done|]. split; [done|]. split.
    + eexists. split; [exact Hstatus|].
      apply (loop_message_not_ok ser). by left.
    + split; [done|]. intros ?. lia.
  - assert (wf started) as Hwf' by (by apply start_wf).
    set (line := join_fields (mock_fields cfg draw (seq 0 n))).
    assert (framed started (line ++ TERMINATOR) = false) as Hfr.
    { apply not_framed. right. rewrite (wf_size _ Hwf').
      apply (mock_line_too_long cfg draw started k); try done;
        change (_channels started) with n; lia. }
    exists (line ++ TERMINATOR). eexists. split.
    { rewrite (readline_set _ _ _ TERMINATOR) by (done || lia).
      by rewrite Hcfg. }
    split; [apply read_not_framed; auto|].
    rewrite bool_decide_true by done.
    split; [eexists; split; [done|apply msg_framing_not_ok]|].
    split; [intros ?; lia|]. intros _. split; [done|].
    unfold sample_values. simpl. by rewrite drop_0.
Qed.

End MockFacts.

(** ** The poll loop *)

Section PollFacts.
Context {F : Type} `{PyFloatOps F}.

Abbreviation responses_t := (list (F * (pystr * pystr))).

Lemma short_split_geometry (s s' : SelTemperature F) response :
  _channels s' = _channels s ->
  _read_line_size s' = _read_line_size s ->
  short_split s' response <-> short_split s response.
Proof.
  intros Hn Hsize. unfold short_split, framed, fields.
  by rewrite Hn, Hsize.
Qed.

Lemma poll_disabled (responses : responses_t) (e : EssInstrument F) sink :
  _enabled e = false -> poll responses (e, sink) = Return tt (e, sink).
Proof. intros He. destruct responses; simpl; by rewrite He. Qed.

Lemma poll_app (before behind : responses_t) : forall e sink,
  poll (before ++ behind) (e, sink)
  = match poll before (e, sink) with
    | Return _ st => poll behind st
    | Raise ex st => Raise ex st
    end.
Proof.
  induction before as [|[now response] before IH]; intros e sink.
  - simpl. destruct (_enabled e) eqn:He; [done|].
    by rewrite poll_disabled.
  - simpl. destruct (_enabled e) eqn:He; [|by rewrite poll_disabled].
    destruct (read now response (_reader e)); [apply IH|done].
Qed.

(** The loop over responses none of which runs out of fields. *)
Lemma poll_delivers (responses : responses_t) : forall e sink,
  _enabled e = true ->
  wf (_reader e) ->
  Forall (fun r => ~ short_split (_reader e) r.2) responses ->
  exists e' samples,
    poll responses (e, sink) = Return tt (e', sink ++ samples)
    /\ Forall2 (fun r o => sample_shape (_channels (_reader e)) r.1 o)
         responses samples
    /\ _enabled e' = true
    /\ wf (_reader e')
    /\ _channels (_reader e') = _channels (_reader e)
    /\ _read_line_size (_reader e') = _read_line_size (_reader e).
Proof.
  induction responses as [|[now response] responses IH];
    intros e sink He Hwf Hsafe.
  - exists e, []. simpl. rewrite He, app_nil_r.
    split; [done|]. split; [constructor|]. by repeat (split; [done|]).
  - apply Forall_cons in Hsafe as [Hr Hsafe]. simpl in Hr.
    destruct (read_returns_not_short now response (_reader e) Hwf Hr)
      as [r Hread].
    destruct (read_keeps _ _ _ _ Hwf Hread) as (Hn & Hsize & Hwf').
    destruct (read_output _ _ _ _ Hwf Hread) as [st Hout].
    assert (length (temperature r) = _channels (_reader e)) as Hlen
      by (rewrite <- Hn; by destruct Hwf').
    destruct (IH (set_reader r e) (sink ++ [output r]))
      as (e' & samples & Hpoll & Hshapes & He' & Hwf'' & Hn' & Hsize');
      try done.
    { eapply Forall_impl; [exact Hsafe|]. intros x Hx Hshort.
      apply Hx. by apply (short_split_geometry (_reader e) r). }
    exists e', (output r :: samples). simpl. rewrite He, Hread, Hpoll.
    rewrite <- app_assoc. simpl in *.
    split; [done|]. split.
    + constructor; [|by rewrite <- Hn].
      rewrite Hout. split; simpl; [lia|done].
    + split; [done|]. split; [done|]. split; congruence.
Qed.

(** X13: while no response runs out of fields, [_run] hands the callback
    one sample per response, in order, each made of the timestamp of its
    read, a status and one value per channel, and ends with the loop still
    enabled on a decoder that satisfies the invariant. *)
Theorem run_delivers_each (responses : responses_t) (e : EssInstrument F)
    (sink : list (list (pyval F))) :
  _enabled e = true ->
  wf (_reader e) ->
  Forall (fun r => ~ short_split (_reader e) r.2) responses ->
  exists e' samples,
    _run responses (e, sink) = Return tt (e', sink ++ samples)
    /\ Forall2 (fun r o => sample_shape (_channels (_reader e)) r.1 o)
         responses samples
    /\ _enabled e' = true
    /\ wf (_reader e').
Proof.
  intros He Hwf Hsafe.
  destruct (poll_delivers responses
              (set_reader (state_after (start (_reader e))) e) sink)
    as (e' & samples & Hpoll & Hshapes & He' & Hwf' & _); try done.
  - by apply start_wf.
  - exists e', samples. unfold _run. simpl in *. by rewrite Hpoll.
Qed.

(** X14: at the first response that runs out of fields [_run] ends with
    [IndexError]: the callback has received one sample for each response
    before it and receives none for it or for any response behind it. *)
Theorem run_stops_at_short_split (before behind : responses_t)
    (now : F) (response : pystr * pystr) (e : EssInstrument F)
    (sink : list (list (pyval F))) :
  _enabled e = true ->
  wf (_reader e) ->
  Forall (fun r => ~ short_split (_reader e) r.2) before ->
  short_split (_reader e) response ->
  exists samples,
    loop_exception (_run (before ++ (now, response) :: behind) (e, sink))
      = Some IndexError
    /\ delivered (_run (before ++ (now, response) :: behind) (e, sink))
       = sink ++ samples
    /\ length samples = length before.
Proof.
  intros He Hwf Hsafe Hshort.
  destruct (poll_delivers before
              (set_reader (state_after (start (_reader e))) e) sink)
    as (e' & samples & Hpoll & Hshapes & He' & Hwf' & Hn & Hsize);
    try done.
  { by apply start_wf. }
  exists samples.
  assert (exception_of (read now response (_reader e')) = Some IndexError)
    as Hexn.
  { apply read_raises_short; [done|].
    by apply (short_split_geometry (_reader e) (_reader e')). }
  assert (forall rs : responses_t,
            _run rs (e, sink)
            = poll rs (set_reader (state_after (start (_reader e))) e, sink))
    as Hrun by done.
  rewrite !Hrun, poll_app, Hpoll. simpl. rewrite He'.
  destruct (read now response (_reader e')) as [?|ex r]; [done|].
  simpl in *. injection Hexn as ->.
  split; [done|]. split; [done|].
  symmetry. by eapply Forall2_length.
Qed.

End PollFacts.

(** ** The first read of a new decoder *)

Section FirstRead.
Context {F : Type} `{PyFloatOps F}.
Variable SerialReader_init : pystr -> MockTemperatureSensor F -> option exn.

(** X15: a decoder as its construction returns it, whose first read meets
    a transport status other than OK or a line that fails the framing test,
    gives a sample with the default "9999.9990" in every channel. *)
Theorem first_read_failure_defaults (nm : pystr)
    (dev : MockTemperatureSensor F) (channels : nat) (s : SelTemperature F)
    (now : F) (err ser : pystr) :
  SelTemperature_init SerialReader_init nm dev channels = inr s ->
  err <> lit "OK" \/ framed s ser = false ->
  exists s',
    read now (err, ser) s = Return tt s'
    /\ sample_values s' = replicate channels DEFAULT_VAL
    /\ temperature s' = replicate channels DEFAULT_VAL.
Proof.
  intros Hinit Hbad.
  pose proof (init_wf SerialReader_init nm dev channels s Hinit) as Hwf.
  assert (temperature s = replicate channels DEFAULT_VAL) as Htemp.
  { revert Hinit. unfold SelTemperature_init.
    destruct (SerialReader_init nm dev); [done|].
    rewrite !bool_decide_true by apply lookup_empty.
    rewrite init_channels. by intros [= <-]. }
  eexists. split; [by apply read_not_framed|].
  by rewrite <- Htemp.
Qed.

End FirstRead.

(** ** The further properties on the scenarios *)

Module ExtraScenarioFacts.
Import Scenario MockScenario.

Lemma values4_plain :
  Forall2 (fun v f => length v = 9 /\ py_float v = Some f) values4 floats4.
Proof. repeat constructor; by vm_compute. Qed.

Lemma decoder4_read_eq :
  read t1 (lit "OK", line_current ++ TERMINATOR) decoder4
  = Return tt decoder4_read.
Proof.
  unfold decoder4_read.
  by rewrite (read_accepted_frame preamble decoder4 t1 line_current
                values4 floats4)
    by (apply constructed_wf || auto || apply values4_plain
        || (vm_compute; reflexivity)).
Qed.

(** The two-channel line without a comma, and the same line with it. *)
Lemma read_raises_iff_witness :
  (exception_of (read t1 (lit "OK", line_no_delimiter ++ TERMINATOR) decoder2)
   = Some IndexError
   <-> lit "OK" = lit "OK"
       /\ framed decoder2 (line_no_delimiter ++ TERMINATOR) = true
       /\ commas (PyStr.slice None (Some (- len TERMINATOR)%Z)
                    (line_no_delimiter ++ TERMINATOR)) + 1
          < _channels decoder2)
  /\ ((exists s', read t1 (lit "OK", line_no_delimiter ++ TERMINATOR) decoder2
                  = Return tt s')
      <-> ~ (lit "OK" = lit "OK"
             /\ framed decoder2 (line_no_delimiter ++ TERMINATOR) = true
             /\ commas (PyStr.slice None (Some (- len TERMINATOR)%Z)
                          (line_no_delimiter ++ TERMINATOR)) + 1
                < _channels decoder2)).
Proof.
  apply (read_raises_iff decoder2 t1 (lit "OK")
           (line_no_delimiter ++ TERMINATOR)).
  apply constructed_wf.
Defined.

Lemma read_returns_sample_witness :
  (exists e, output decoder4_read
             = PyFloat t1 :: PyStr e :: temperature decoder4_read)
  /\ length (temperature decoder4_read) = _channels decoder4
  /\ _channels decoder4_read = _channels decoder4
  /\ _read_line_size decoder4_read = _read_line_size decoder4
  /\ wf decoder4_read.
Proof.
  apply (read_returns_sample decoder4 decoder4_read t1
           (lit "OK", line_current ++ TERMINATOR)).
  - apply constructed_wf.
  - exact decoder4_read_eq.
Defined.

Lemma transport_error_passes_witness :
  exists s',
    read t2 (lit "TIMEOUT", []) decoder4_read = Return tt s'
    /\ output s' = PyFloat t2 :: PyStr (lit "TIMEOUT")
                   :: temperature decoder4_read
    /\ temperature s' = temperature decoder4_read
    /\ forall ser', read t2 (lit "TIMEOUT", ser') decoder4_read
                    = Return tt s'.
Proof.
  apply (transport_error_passes decoder4_read t2 (lit "TIMEOUT") []).
  - exact ScenarioFacts.decoder4_read_wf.
  - by vm_compute.
Defined.

Lemma framed_read_forgets_witness :
  sample_of (read t2 (lit "OK", line_garbled2 ++ TERMINATOR) decoder4)
  = sample_of (read t2 (lit "OK", line_garbled2 ++ TERMINATOR) decoder4_read).
Proof.
  apply (framed_read_forgets decoder4 decoder4_read t2
           (line_garbled2 ++ TERMINATOR)).
  - apply constructed_wf.
  - exact ScenarioFacts.decoder4_read_wf.
  - reflexivity.
  - vm_compute. reflexivity.
Defined.

Lemma status_ok_iff_witness :
  exists s' e,
    read t1 (lit "OK", line_unconnected2 ++ TERMINATOR) decoder4
      = Return tt s'
    /\ sample_status s' = Some (PyStr e)
    /\ (e = lit "OK"
        <-> forall j tj,
              PyStr.split ","%char (Z.of_nat (_channels decoder4) - 1)
                line_unconnected2 !! j = Some tj ->
              accepted j tj = true
              /\ (value_text tj = SENSOR_UNCONNECTED_VAL
                  \/ is_Some (py_float (value_text tj)))).
Proof.
  apply (status_ok_iff decoder4 t1 line_unconnected2).
  - apply constructed_wf.
  - reflexivity.
  - reflexivity.
Defined.

Lemma accepted_bounds_witness :
  4 <= length (lit "C00=0018.1234") /\ 0 < 100
  /\ is_Some (py_float (value_window (lit "C00=0018.1234"))).
Proof.
  apply (accepted_bounds 0 (lit "C00=0018.1234")).
  vm_compute. reflexivity.
Defined.

Lemma line101_not_short :
  ~ short_split decoder101 (lit "OK", line101 ++ TERMINATOR).
Proof. intros (_ & _ & Hlen). vm_compute in Hlen. lia. Qed.

(** The 101-channel decoder on a line that passes the framing test and has
    its 101 fields, the first hundred of them accepted: the status is the
    channel message, set in the turn of channel 100. *)
Lemma over_100_channels_never_ok_witness :
  framed decoder101 (line101 ++ TERMINATOR) = true
  /\ length (fields decoder101 (line101 ++ TERMINATOR)) = 101
  /\ (forall i, i < 100 ->
        from_option (accepted i) false
          (fields decoder101 (line101 ++ TERMINATOR) !! i) = true)
  /\ sample_status
       (state_after (read t1 (lit "OK", line101 ++ TERMINATOR) decoder101))
     = Some (PyStr (msg_channel (line101 ++ TERMINATOR)))
  /\ exists e,
       sample_status
         (state_after (read t1 (lit "OK", line101 ++ TERMINATOR) decoder101))
       = Some (PyStr e)
       /\ e <> lit "OK".
Proof.
  split; [by vm_compute|]. split; [by vm_compute|].
  split.
  { intros i Hi.
    assert (Forall (fun i => from_option (accepted i) false
                      (fields decoder101 (line101 ++ TERMINATOR) !! i) = true)
              (seq 0 100)) as Hall
      by (apply (bool_decide_unpack _); by vm_compute).
    apply (Forall_lookup_1 _ _ i i Hall). by apply lookup_seq_lt. }
  split; [by vm_compute|].
  destruct (read_returns_not_short t1 (lit "OK", line101 ++ TERMINATOR)
              decoder101 (constructed_wf _ _ _) line101_not_short)
    as [s' Hread].
  rewrite Hread.
  apply (over_100_channels_never_ok decoder101 s' t1
           (lit "OK", line101 ++ TERMINATOR)).
  - apply constructed_wf.
  - unfold decoder101. simpl. lia.
  - exact Hread.
Defined.

Lemma accepted_preamble_iff_witness :
  accepted 0 (preamble 1 ++ lit "0018.1234") = true <-> 1 = 0 \/ 1 = 0 + 1.
Proof.
  apply (accepted_preamble_iff 0 1 (lit "0018.1234") 18.1234%float).
  - lia.
  - reflexivity.
  - vm_compute. reflexivity.
Defined.


Lemma readline_outcomes_witness :
  readline Binary64Format.format_09_4f mock4 device draw4 = inl TypeError
  /\ readline Binary64Format.format_09_4f mock4 device_started draw4
     = inr (lit "OK", line_current ++ TERMINATOR).
Proof.
  split.
  - apply (readline_outcomes Binary64Format.format_09_4f mock4 device draw4).
    simpl. lia.
  - rewrite (readline_outcomes Binary64Format.format_09_4f mock4
               device_started draw4) by (simpl; lia).
    vm_compute. reflexivity.
Defined.

Lemma mock4_texts :
  Forall (fun v => length v = 9 /\ Forall (fun c => c <> ","%char) v)
    ((fun i => mock_value Binary64Format.format_09_4f mock4 (draw4 i) i)
       <$> seq 0 4).
Proof. apply (bool_decide_unpack _). by vm_compute. Qed.

Lemma mock_line_decodes_witness :
  exists response s',
    readline Binary64Format.format_09_4f mock4
      (comport (state_after (start decoder4))) draw4 = inr response
    /\ read t1 response (state_after (start decoder4)) = Return tt s'
    /\ sample_status s' = Some (PyStr (lit "OK"))
    /\ sample_values s'
       = zip_with channel_value
           ((fun i => mock_value Binary64Format.format_09_4f mock4
                        (draw4 i) i) <$> seq 0 4)
           floats4.
Proof.
  apply (mock_line_decodes Binary64Format.format_09_4f mock4 draw4 decoder4
           t1 floats4).
  - apply constructed_wf.
  - simpl. lia.
  - reflexivity.
  - by left.
  - simpl. lia.
  - exact mock4_texts.
  - repeat constructor; by vm_compute.
Defined.

Lemma mock99_texts :
  Forall (fun v => length v = 9 /\ Forall (fun c => c <> ","%char) v)
    ((fun i => mock_value Binary64Format.format_09_4f mock99_shifted
                 (draw_same i) i) <$> seq 0 99).
Proof. apply (bool_decide_unpack _). by vm_compute. Qed.

(** A mock numbering from 2, on binary64: with four channels the status is
    the channel message and every value the default; with 99 channels, the
    last of them numbered 100, the status is the framing message. *)
Lemma mock_offset_rejected_witness :
  (exists ser s',
     readline Binary64Format.format_09_4f mock4_shifted
       (comport (state_after (start decoder4))) draw4 = inr (lit "OK", ser)
     /\ read t1 (lit "OK", ser) (state_after (start decoder4)) = Return tt s'
     /\ sample_status s' = Some (PyStr (msg_channel ser))
     /\ sample_values s' = replicate 4 DEFAULT_VAL)
  /\ (exists ser s',
        readline Binary64Format.format_09_4f mock99_shifted
          (comport (state_after (start decoder99))) draw_same
        = inr (lit "OK", ser)
        /\ read t1 (lit "OK", ser) (state_after (start decoder99))
           = Return tt s'
        /\ sample_status s' = Some (PyStr (msg_framing ser))
        /\ sample_values s' = temperature decoder99).
Proof.
  split.
  - destruct (mock_offset_rejected Binary64Format.format_09_4f mock4_shifted
                draw4 decoder4 t1 2)
      as (ser & s' & Hline & Hread & _ & Hbelow & _).
    + apply constructed_wf.
    + simpl. lia.
    + reflexivity.
    + reflexivity.
    + lia.
    + exact mock4_texts.
    + exists ser, s'. split; [exact Hline|]. split; [exact Hread|].
      apply Hbelow. simpl. lia.
  - destruct (mock_offset_rejected Binary64Format.format_09_4f mock99_shifted
                draw_same decoder99 t1 2)
      as (ser & s' & Hline & Hread & _ & _ & Habove).
    + apply constructed_wf.
    + simpl. lia.
    + reflexivity.
    + reflexivity.
    + lia.
    + exact mock99_texts.
    + exists ser, s'. split; [exact Hline|]. split; [exact Hread|].
      apply Habove. simpl. lia.
Defined.

Lemma first_read_failure_defaults_witness :
  exists s',
    read t1 (lit "OK", line_current ++ LFLF) decoder4 = Return tt s'
    /\ sample_values s' = replicate 4 DEFAULT_VAL
    /\ temperature s' = replicate 4 DEFAULT_VAL.
Proof.
  apply (first_read_failure_defaults base_returns (lit "MockSensor") device 4
           decoder4 t1 (lit "OK") (line_current ++ LFLF)).
  - by apply init_returns.
  - right. vm_compute. reflexivity.
Defined.

Lemma line_two_not_short :
  ~ short_split decoder2 (lit "OK", line_two ++ TERMINATOR).
Proof. intros (_ & _ & Hlen). vm_compute in Hlen. lia. Qed.

Lemma run_delivers_each_witness :
  exists e' samples,
    _run [(t1, (lit "OK", line_two ++ TERMINATOR));
          (t2, (lit "TIMEOUT", []))] (instrument2, [])
      = Return tt (e', [] ++ samples)
    /\ Forall2 (fun r o => sample_shape (_channels (_reader instrument2))
                             r.1 o)
         [(t1, (lit "OK", line_two ++ TERMINATOR));
          (t2, (lit "TIMEOUT", []))] samples
    /\ _enabled e' = true
    /\ wf (_reader e').
Proof.
  apply (run_delivers_each
           [(t1, (lit "OK", line_two ++ TERMINATOR));
            (t2, (lit "TIMEOUT", []))] instrument2 []).
  - reflexivity.
  - apply constructed_wf.
  - repeat constructor.
    + exact line_two_not_short.
    + by intros (Herr & _).
Defined.

Lemma run_stops_at_short_split_witness :
  exists samples,
    loop_exception
      (_run ([(t1, (lit "OK", line_two ++ TERMINATOR))]
             ++ (t2, (lit "OK", line_no_delimiter ++ TERMINATOR))
             :: [(t2, (lit "OK", line_two ++ TERMINATOR))])
         (instrument2, []))
    = Some IndexError
    /\ delivered
         (_run ([(t1, (lit "OK", line_two ++ TERMINATOR))]
                ++ (t2, (lit "OK", line_no_delimiter ++ TERMINATOR))
                :: [(t2, (lit "OK", line_two ++ TERMINATOR))])
            (instrument2, []))
       = [] ++ samples
    /\ length samples = length [(t1, (lit "OK", line_two ++ TERMINATOR))].
Proof.
  apply (run_stops_at_short_split
           [(t1, (lit "OK", line_two ++ TERMINATOR))]
           [(t2, (lit "OK", line_two ++ TERMINATOR))]
           t2 (lit "OK", line_no_delimiter ++ TERMINATOR) instrument2 []).
  - reflexivity.
  - apply constructed_wf.
  - repeat constructor. exact line_two_not_short.
  - repeat split; by vm_compute.
Defined.

End ExtraScenarioFacts.
